(** * Admission validation of FlinkCluster resources

    A shallow embedding of [api/v1alpha1/flinkcluster_validate.go]: the
    [Validator] that decides create and update requests for the FlinkCluster
    custom resource.

    Layout of the development:
    - [Go]: the result type of a Go call (returned value, returned error,
      run-time panic) and its sequencing;
    - the resource types the validator reads;
    - the validator itself, function by function, as pure functions of
      resource snapshots;
    - [Mem]: the same update path over an explicit store of heap cells, where
      [old] and [new] are addresses and the assignment made by
      [checkCancelRequested] is a store update;
    - the properties. *)

From stdpp Require Import base decidable option numbers strings gmap pretty.
From Stdlib Require Import ZArith Lia.

Local Open Scope string_scope.
Local Open Scope Z_scope.

(** ** Go calls *)

(** One constructor per [fmt.Errorf] call site of the file, carrying the
    values the format string prints. *)
Inductive error : Type :=
  | ErrNameUnspecified
  | ErrNamespaceUnspecified
  | ErrImageNameUnspecified
  | ErrInvalidPullPolicy (pullPolicy : string)
  | ErrJobManagerReplicas
  | ErrJobManagerAccessScope (accessScope : string)
  | ErrJobManagerOffHeapRatio
  | ErrJobManagerOffHeapMinUnspecified
  | ErrJobManagerMemoryLimit
  | ErrTaskManagerReplicas
  | ErrJarFileUnspecified
  | ErrParallelismUnspecified
  | ErrParallelismTooSmall
  | ErrRestartPolicyUnspecified
  | ErrInvalidRestartPolicy (restartPolicy : string)
  | ErrCleanupPolicyUnspecified
  | ErrCancelRequestedForNewJob
  | ErrPortUnspecified (component name : string)
  | ErrInvalidPort (component name : string) (port : Z)
  | ErrInvalidCleanupAction (property value : string)
  | ErrNotUpdatable
  | ErrCancelRequestedTrueToFalse.

#[global] Instance error_eq_dec : EqDecision error.
Proof. solve_decision. Defined.

(** The text [err.Error()] yields. *)
Definition Error (e : error) : string :=
  match e with
  | ErrNameUnspecified => "cluster name is unspecified"
  | ErrNamespaceUnspecified => "cluster namesapce is unspecified"
  | ErrImageNameUnspecified => "image name is unspecified"
  | ErrInvalidPullPolicy p => "invalid image pullPolicy: " +:+ p
  | ErrJobManagerReplicas => "invalid JobManager replicas, it must be 1"
  | ErrJobManagerAccessScope s => "invalid JobManager access scope: " +:+ s
  | ErrJobManagerOffHeapRatio =>
      "invalid JobManager memoryOffHeapRatio, it must be between 0 and 100"
  | ErrJobManagerOffHeapMinUnspecified =>
      "invalid JobManager memory configuration, MemoryOffHeapMin is not specified"
  | ErrJobManagerMemoryLimit =>
      "invalid JobManager memory configuration, memory limit must be larger than MemoryOffHeapMin"
  | ErrTaskManagerReplicas => "invalid TaskManager replicas, it must >= 1"
  | ErrJarFileUnspecified => "job jarFile is unspecified"
  | ErrParallelismUnspecified => "job parallelism is unspecified"
  | ErrParallelismTooSmall => "job parallelism must be >= 1"
  | ErrRestartPolicyUnspecified => "job restartPolicy is unspecified"
  | ErrInvalidRestartPolicy p => "invalid job restartPolicy: " +:+ p
  | ErrCleanupPolicyUnspecified => "job cleanupPolicy is unspecified"
  | ErrCancelRequestedForNewJob =>
      "property `cancelRequested` cannot be set to true for a new job"
  | ErrPortUnspecified component name =>
      component +:+ " " +:+ name +:+ " port is unspecified"
  | ErrInvalidPort component name port =>
      "invalid " +:+ component +:+ " " +:+ name +:+ " port: " +:+ pretty port
        +:+ ", must be > 1024"
  | ErrInvalidCleanupAction property value =>
      "invalid " +:+ property +:+ ": " +:+ value
  | ErrNotUpdatable => "the cluster properties are not updatable"
  | ErrCancelRequestedTrueToFalse =>
      "updating cancelRequested from true to false is not allowed"
  end.

Module Go.

(** What a call of a Go function with result list [(A, error)] does: it
    returns a value with a nil error, returns a non-nil error, or panics
    (here only ever by dereferencing a nil pointer).  A function whose only
    result is [error] is a [res unit]; [Val tt] is the nil error. *)
Inductive res (A : Type) : Type :=
  | Val (a : A)
  | Err (e : error)
  | Panic.
Arguments Val {A} a.
Arguments Err {A} e.
Arguments Panic {A}.

#[global] Instance res_eq_dec {A} `{EqDecision A} : EqDecision (res A).
Proof. solve_decision. Defined.

(** Sequencing: an error or a panic of the first call ends the function,
    which is what [if err != nil { return err }] after each call does. *)
#[global] Instance res_bind : MBind res := λ A B k r,
  match r with
  | Val a => k a
  | Err e => Err e
  | Panic => Panic
  end.

(** [*p] for a pointer [p] to an immutable cell. *)
Definition deref {A} (p : option A) : res A :=
  match p with
  | Some a => Val a
  | None => Panic
  end.

(** [p == nil]. *)
Definition isNil {A} (p : option A) : bool :=
  match p with
  | Some _ => false
  | None => true
  end.

(** [len(s)] of a string. *)
Definition len (s : string) : Z := Z.of_nat (String.length s).

End Go.

Import Go.

(** The nil error. *)
Abbreviation ok := (Val tt).

(** ** The float conversion of the memory limit *)

(** The value of [float64(a)] for an [int64] [a]: [a] itself below 2^53, and
    above it the nearest multiple of the unit in the last place, ties to the
    even significand. *)
Definition float64_of_int64 (a : Z) : Z :=
  let m := Z.abs a in
  if m <? 2 ^ 53 then a
  else
    let e := Z.log2 m - 52 in
    let q := m / 2 ^ e in
    let r := m mod 2 ^ e in
    let half := 2 ^ (e - 1) in
    let q' :=
      if r <? half then q
      else if half <? r then q + 1
      else if Z.even q then q else q + 1 in
    Z.sgn a * (q' * 2 ^ e).

(** [int32(x)] for a float [x] with an integral value.  Outside the range of
    [int32] the Go specification leaves the result to the implementation;
    amd64 gives the least [int32], which is taken here, and
    [validateJobManager_limit_unread] shows that no result of the validator
    depends on the choice. *)
Definition int32_of_float (x : Z) : Z :=
  if (- 2 ^ 31 <=? x) && (x <=? 2 ^ 31 - 1) then x else - 2 ^ 31.

(** ** Resource types

    Pointer fields ([*int32], [*bool], [*string], [*CleanupPolicy]) are
    [option]s: [None] is the nil pointer.  Nothing in the validator writes
    through one of them, so the cell behind each is a value.  The one pointer
    that is written through, [Spec.Job], is a value here as well and an
    address in [Mem] below. *)

(** [metav1.ObjectMeta], the two fields [validateMeta] reads. *)
Module ObjectMeta.
Record t : Type := mk { Name : string; Namespace : string }.
#[global] Instance eq_dec : EqDecision t.
Proof. solve_decision. Defined.
End ObjectMeta.

(** [inf.Dec] of gopkg.in/inf.v0 as [reflect.DeepEqual] sees it: the sign
    and the magnitude words of the unscaled [big.Int] ([None] is the nil
    slice, which [reflect.DeepEqual] tells from the empty one) and the
    scale. *)
Module Dec.
Record t : Type := mk { neg : bool; abs : option (list Z); scale : Z }.
#[global] Instance eq_dec : EqDecision t.
Proof. solve_decision. Defined.
End Dec.

(** [resource.Quantity] of k8s.io/apimachinery, field by field as
    [reflect.DeepEqual] compares it: the amount in [int64] form ([i.value]
    and [i.scale]), the amount in [inf.Dec] form ([d], nil when the [int64]
    form is in use), the cached string [s] (empty when none is cached) and
    the [Format].  So 1Gi and 1024Mi, or 1500m and 2, are different values
    here as they are to [reflect.DeepEqual].  [Value] is the [int64] that the
    library's [Value()] computes from the amount, kept beside the fields it
    is computed from: the computation is library code and is taken as
    given. *)
Module Quantity.
Record t : Type := mk {
  i_value : Z;
  i_scale : Z;
  d : option Dec.t;
  s : string;
  Format : string;
  Value : Z }.
#[global] Instance eq_dec : EqDecision t.
Proof. solve_decision. Defined.

Definition BinarySI : string := "BinarySI".

(** [resource.MustParse("1Mi")]. *)
Definition oneMi : t := mk 1048576 0 None "1Mi" BinarySI 1048576.
End Quantity.

(** [corev1.ResourceList], a [map[ResourceName]resource.Quantity]; [None] is
    the nil map, which [reflect.DeepEqual] tells from the empty one. *)
Module ResourceList.
Abbreviation t := (option (gmap string Quantity.t)).

Definition ResourceMemory : string := "memory".

(** [Memory()]: the entry under ["memory"], or the zero quantity in
    [BinarySI] format when there is none. *)
Definition Memory (rl : t) : Quantity.t :=
  match rl ≫= (λ m, m !! ResourceMemory) with
  | Some q => q
  | None => Quantity.mk 0 0 None "" Quantity.BinarySI 0
  end.
End ResourceList.

(** [corev1.ResourceRequirements]. *)
Module ResourceRequirements.
Record t : Type := mk { Limits : ResourceList.t; Requests : ResourceList.t }.
#[global] Instance eq_dec : EqDecision t.
Proof. solve_decision. Defined.
End ResourceRequirements.

(** Modelled from the spec: [ImageSpec] is declared in
    api/v1alpha1/flinkcluster_types.go, which is not among the sources; the
    fields are those [validateImage] reads (section 3: image reference and
    pull policy). *)
Module ImageSpec.
Record t : Type := mk { Name : string; PullPolicy : string }.
#[global] Instance eq_dec : EqDecision t.
Proof. solve_decision. Defined.
End ImageSpec.

(** Modelled from the spec: [JobManagerPorts] of flinkcluster_types.go (the
    port set rpc, blob, query, ui of section 3), each a [*int32]. *)
Module JobManagerPorts.
Record t : Type := mk {
  RPC : option Z; Blob : option Z; Query : option Z; UI : option Z }.
#[global] Instance eq_dec : EqDecision t.
Proof. solve_decision. Defined.
End JobManagerPorts.

(** Modelled from the spec: [JobManagerSpec] of flinkcluster_types.go, the
    fields [validateJobManager] reads (section 3, ManagerSpec). *)
Module JobManagerSpec.
Record t : Type := mk {
  Replicas : option Z;
  AccessScope : string;
  Ports : JobManagerPorts.t;
  Resources : ResourceRequirements.t;
  MemoryOffHeapRatio : option Z;
  MemoryOffHeapMin : option Z }.
#[global] Instance eq_dec : EqDecision t.
Proof. solve_decision. Defined.
End JobManagerSpec.

(** Modelled from the spec: [TaskManagerPorts] of flinkcluster_types.go (the
    port set rpc, data, query of section 3). *)
Module TaskManagerPorts.
Record t : Type := mk {
  RPC : option Z; Data : option Z; Query : option Z }.
#[global] Instance eq_dec : EqDecision t.
Proof. solve_decision. Defined.
End TaskManagerPorts.

(** Modelled from the spec: [TaskManagerSpec] of flinkcluster_types.go, the
    fields [validateTaskManager] reads; [Replicas] is an [int32], not a
    pointer. *)
Module TaskManagerSpec.
Record t : Type := mk { Replicas : Z; Ports : TaskManagerPorts.t }.
#[global] Instance eq_dec : EqDecision t.
Proof. solve_decision. Defined.
End TaskManagerSpec.

(** Modelled from the spec: [CleanupPolicy] of flinkcluster_types.go, two
    [CleanupAction]s (a string type). *)
Module CleanupPolicy.
Record t : Type := mk { AfterJobSucceeds : string; AfterJobFails : string }.
#[global] Instance eq_dec : EqDecision t.
Proof. solve_decision. Defined.
End CleanupPolicy.

(** Modelled from the spec: [JobSpec] of flinkcluster_types.go, the fields
    [validateJob] and [checkCancelRequested] read (section 3, JobSpec). *)
Module JobSpec.
Record t : Type := mk {
  JarFile : string;
  Parallelism : option Z;
  RestartPolicy : option string;
  CleanupPolicy : option CleanupPolicy.t;
  CancelRequested : option bool }.
#[global] Instance eq_dec : EqDecision t.
Proof. solve_decision. Defined.

(** The struct after the assignment [j.CancelRequested = p]. *)
Definition setCancelRequested (p : option bool) (j : t) : t :=
  mk (JarFile j) (Parallelism j) (RestartPolicy j) (CleanupPolicy j) p.
End JobSpec.

(** Modelled from the spec: [FlinkClusterSpec] of flinkcluster_types.go
    (section 3: image, manager, worker and an optional job).  The type of the
    [Job] field is left open: it is [option JobSpec.t] in a snapshot and an
    address in the store of [Mem]. *)
Module FlinkClusterSpec.
Record t (J : Type) : Type := mk {
  Image : ImageSpec.t;
  JobManager : JobManagerSpec.t;
  TaskManager : TaskManagerSpec.t;
  Job : J }.
Arguments mk {J} _ _ _ _.
Arguments Image {J} _.
Arguments JobManager {J} _.
Arguments TaskManager {J} _.
Arguments Job {J} _.
#[global] Instance eq_dec {J} `{EqDecision J} : EqDecision (t J).
Proof. solve_decision. Defined.

(** The struct with its [Job] field replaced. *)
Definition setJob {J K} (j : K) (s : t J) : t K :=
  mk (Image s) (JobManager s) (TaskManager s) j.
End FlinkClusterSpec.

(** Modelled from the spec: [FlinkCluster] of flinkcluster_types.go, the
    embedded [ObjectMeta] (the identity of section 3) and the [Spec]. *)
Module FlinkCluster.
Record t (J : Type) : Type := mk {
  ObjectMeta : ObjectMeta.t;
  Spec : FlinkClusterSpec.t J }.
Arguments mk {J} _ _.
Arguments ObjectMeta {J} _.
Arguments Spec {J} _.
#[global] Instance eq_dec {J} `{EqDecision J} : EqDecision (t J).
Proof. solve_decision. Defined.
End FlinkCluster.

(** A resource as the API boundary hands it over, every pointer followed. *)
Abbreviation Cluster := (FlinkCluster.t (option JobSpec.t)).
Abbreviation ClusterSpec := (FlinkClusterSpec.t (option JobSpec.t)).

(** *** Enumerated values *)

(** [corev1.PullAlways], [corev1.PullIfNotPresent], [corev1.PullNever]. *)
Definition PullAlways : string := "Always".
Definition PullIfNotPresent : string := "IfNotPresent".
Definition PullNever : string := "Never".

(** [corev1.RestartPolicyNever], [corev1.RestartPolicyOnFailure]. *)
Definition RestartPolicyNever : string := "Never".
Definition RestartPolicyOnFailure : string := "OnFailure".

(** Modelled from the spec: the [AccessScope] values of
    flinkcluster_types.go (section 3: Cluster | VPC | External). *)
Module AccessScope.
Definition Cluster : string := "Cluster".
Definition VPC : string := "VPC".
Definition External : string := "External".
End AccessScope.

(** Modelled from the spec: the [CleanupAction] constants of
    flinkcluster_types.go (section 3: DeleteCluster | DeleteTaskManager |
    KeepCluster). *)
Definition CleanupActionDeleteCluster : string := "DeleteCluster".
Definition CleanupActionDeleteTaskManager : string := "DeleteTaskManager".
Definition CleanupActionKeepCluster : string := "KeepCluster".

(** [reflect.DeepEqual] on these types: pointers are followed and every
    field, exported or not, is compared, so two values are deeply equal
    exactly when their snapshots, which hold every such field, are the same
    value. *)
Definition DeepEqual {A} `{EqDecision A} (x y : A) : bool :=
  bool_decide (x = y).

(** ** The validator *)

Section Validator.

Import FlinkCluster FlinkClusterSpec.

(** [p != nil && *p] and [p == nil || !*p] for a [*bool]. *)
Definition isTrue (p : option bool) : bool :=
  match p with
  | Some b => b
  | None => false
  end.

Definition isNilOrFalse (p : option bool) : bool :=
  match p with
  | Some b => negb b
  | None => true
  end.

Definition validatePort (port : option Z) (name component : string) : res unit :=
  match port with
  | None => Err (ErrPortUnspecified component name)
  | Some p =>
      if p <=? 1024 then Err (ErrInvalidPort component name p)
      else ok
  end.

Definition validateCleanupAction (property value : string) : res unit :=
  if String.eqb value CleanupActionDeleteCluster then ok
  else if String.eqb value CleanupActionDeleteTaskManager then ok
  else if String.eqb value CleanupActionKeepCluster then ok
  else Err (ErrInvalidCleanupAction property value).

Definition validateMeta (meta : ObjectMeta.t) : res unit :=
  if len (ObjectMeta.Name meta) =? 0 then Err ErrNameUnspecified
  else if len (ObjectMeta.Namespace meta) =? 0 then Err ErrNamespaceUnspecified
  else ok.

Definition validateImage (imageSpec : ImageSpec.t) : res unit :=
  if len (ImageSpec.Name imageSpec) =? 0 then Err ErrImageNameUnspecified
  else
    let pullPolicy := ImageSpec.PullPolicy imageSpec in
    if String.eqb pullPolicy PullAlways then ok
    else if String.eqb pullPolicy PullIfNotPresent then ok
    else if String.eqb pullPolicy PullNever then ok
    else Err (ErrInvalidPullPolicy pullPolicy).

Definition validateJobManager (jmSpec : JobManagerSpec.t) : res unit :=
  (* Replicas. *)
  if match JobManagerSpec.Replicas jmSpec with
     | None => true
     | Some replicas => negb (replicas =? 1)
     end
  then Err ErrJobManagerReplicas
  else
  (* AccessScope. *)
  let accessScope := JobManagerSpec.AccessScope jmSpec in
  if negb (String.eqb accessScope AccessScope.Cluster
           || String.eqb accessScope AccessScope.VPC
           || String.eqb accessScope AccessScope.External)
  then Err (ErrJobManagerAccessScope accessScope)
  else
  (* Ports. *)
  let ports := JobManagerSpec.Ports jmSpec in
  validatePort (JobManagerPorts.RPC ports) "rpc" "jobmanager";;
  validatePort (JobManagerPorts.Blob ports) "blob" "jobmanager";;
  validatePort (JobManagerPorts.Query ports) "query" "jobmanager";;
  validatePort (JobManagerPorts.UI ports) "ui" "jobmanager";;
  (* MemoryOffHeapRatio *)
  if match JobManagerSpec.MemoryOffHeapRatio jmSpec with
     | None => true
     | Some ratio => (ratio >? 100) || (ratio <? 0)
     end
  then Err ErrJobManagerOffHeapRatio
  else
  (* MemoryOffHeapMin *)
  let divisor := Quantity.oneMi in
  let limits := ResourceRequirements.Limits (JobManagerSpec.Resources jmSpec) in
  let jmMemLimit :=
    float64_of_int64 (Quantity.Value (ResourceList.Memory limits))
      / float64_of_int64 (Quantity.Value divisor) in
  if negb (isNil (JobManagerSpec.MemoryOffHeapMin jmSpec))
  then Err ErrJobManagerOffHeapMinUnspecified
  else
    min ← deref (JobManagerSpec.MemoryOffHeapMin jmSpec);
    if min >? int32_of_float jmMemLimit then Err ErrJobManagerMemoryLimit
    else ok.

Definition validateTaskManager (tmSpec : TaskManagerSpec.t) : res unit :=
  (* Replicas. *)
  if TaskManagerSpec.Replicas tmSpec <? 1 then Err ErrTaskManagerReplicas
  else
  (* Ports. *)
  let ports := TaskManagerSpec.Ports tmSpec in
  validatePort (TaskManagerPorts.RPC ports) "rpc" "taskmanager";;
  validatePort (TaskManagerPorts.Data ports) "data" "taskmanager";;
  validatePort (TaskManagerPorts.Query ports) "query" "taskmanager";;
  ok.

Definition validateJob (jobSpec : option JobSpec.t) : res unit :=
  match jobSpec with
  | None => ok
  | Some job =>
      if len (JobSpec.JarFile job) =? 0 then Err ErrJarFileUnspecified
      else
      match JobSpec.Parallelism job with
      | None => Err ErrParallelismUnspecified
      | Some parallelism =>
      if parallelism <? 1 then Err ErrParallelismTooSmall
      else
      match JobSpec.RestartPolicy job with
      | None => Err ErrRestartPolicyUnspecified
      | Some restartPolicy =>
      if negb (String.eqb restartPolicy RestartPolicyNever
               || String.eqb restartPolicy RestartPolicyOnFailure)
      then Err (ErrInvalidRestartPolicy restartPolicy)
      else
      match JobSpec.CleanupPolicy job with
      | None => Err ErrCleanupPolicyUnspecified
      | Some cleanupPolicy =>
      validateCleanupAction "cleanupPolicy.afterJobSucceeds"
        (CleanupPolicy.AfterJobSucceeds cleanupPolicy);;
      validateCleanupAction "cleanupPolicy.afterJobFails"
        (CleanupPolicy.AfterJobFails cleanupPolicy);;
      if isTrue (JobSpec.CancelRequested job)
      then Err ErrCancelRequestedForNewJob
      else ok
      end end end
  end.

(** [ValidateCreate]: the five checks in order, the first error returned. *)
Definition ValidateCreate (cluster : Cluster) : res unit :=
  validateMeta (ObjectMeta cluster);;
  validateImage (Image (Spec cluster));;
  validateJobManager (JobManager (Spec cluster));;
  validateTaskManager (TaskManager (Spec cluster));;
  validateJob (Job (Spec cluster));;
  ok.

(** Modelled from the spec: [DeepCopy] is generated code
    (zz_generated.deepcopy.go) that is not among the sources; section 4.2
    calls it a clone of [old].  On snapshots a clone is the same value. *)
Definition DeepCopy (c : Cluster) : Cluster := c.

Definition checkCancelRequested (old new : Cluster) : res bool :=
  match Job (Spec old), Job (Spec new) with
  | Some oldJob, Some newJob =>
      let restartJob :=
        isTrue (JobSpec.CancelRequested oldJob)
        && isNilOrFalse (JobSpec.CancelRequested newJob) in
      if restartJob then Err ErrCancelRequestedTrueToFalse
      else
      let stopJob :=
        isNilOrFalse (JobSpec.CancelRequested oldJob)
        && isTrue (JobSpec.CancelRequested newJob) in
      if stopJob then
        (* Check if only `cancelRequested` changed, no other changes. *)
        let oldCopy := DeepCopy old in
        copyJob ← deref (Job (Spec oldCopy));
        let oldCopy :=
          FlinkCluster.mk (ObjectMeta oldCopy)
            (setJob
               (Some (JobSpec.setCancelRequested
                        (JobSpec.CancelRequested newJob) copyJob))
               (Spec oldCopy)) in
        Val (DeepEqual (Spec new) (Spec oldCopy))
      else Val false
  | _, _ => Val false
  end.

Definition ValidateUpdate (old new : Cluster) : res unit :=
  cancelRequested ← checkCancelRequested old new;
  if cancelRequested : bool then ok
  else if negb (DeepEqual (Spec new) (Spec old)) then Err ErrNotUpdatable
  else ok.

End Validator.

(** ** The update path over a store

    [ValidateUpdate] receives two pointers.  Here a [FlinkCluster] struct and
    a [JobSpec] struct each occupy a cell of a store, the [Job] field of a
    cluster holds the address of a job cell, and the assignment
    [oldCopy.Spec.Job.CancelRequested = ...] overwrites a job cell. *)

Module Mem.

Import FlinkCluster FlinkClusterSpec.

Abbreviation addr := positive.
(** A pointer: nil or an address. *)
Abbreviation ptr := (option addr).

Inductive cell : Type :=
  | ClusterCell (c : FlinkCluster.t ptr)
  | JobCell (j : JobSpec.t).

#[global] Instance cell_eq_dec : EqDecision cell.
Proof. solve_decision. Defined.

Abbreviation store := (gmap addr cell).

(** A computation reads and updates the store and ends like a Go call. *)
Definition M (A : Type) : Type := store → store * res A.

#[global] Instance M_ret : MRet M := λ A a σ, (σ, Val a).
#[global] Instance M_bind : MBind M := λ A B k m σ,
  match m σ with
  | (σ', Val a) => k a σ'
  | (σ', Err e) => (σ', Err e)
  | (σ', Panic) => (σ', Panic)
  end.

Definition fail {A} (e : error) : M A := λ σ, (σ, Err e).

(** [*p] for a [*FlinkCluster]. *)
Definition loadCluster (p : ptr) : M (FlinkCluster.t ptr) := λ σ,
  match p ≫= (λ a, σ !! a) with
  | Some (ClusterCell c) => (σ, Val c)
  | _ => (σ, Panic)
  end.

(** [*p] for a [*JobSpec]. *)
Definition loadJob (p : ptr) : M JobSpec.t := λ σ,
  match p ≫= (λ a, σ !! a) with
  | Some (JobCell j) => (σ, Val j)
  | _ => (σ, Panic)
  end.

(** [*p = j] for a [*JobSpec]. *)
Definition storeJob (p : ptr) (j : JobSpec.t) : M unit := λ σ,
  match p with
  | Some a =>
      match σ !! a with
      | Some (JobCell _) => (<[a := JobCell j]> σ, ok)
      | _ => (σ, Panic)
      end
  | None => (σ, Panic)
  end.

(** A new cell at an address not in use. *)
Definition alloc (c : cell) : M ptr := λ σ,
  let a := fresh (dom σ) in (<[a := c]> σ, Val (Some a)).

(** The value of a [FlinkClusterSpec] with its [Job] pointer followed. *)
Definition readSpec (s : FlinkClusterSpec.t ptr) : M ClusterSpec :=
  match Job s with
  | None => mret (setJob None s)
  | Some a => j ← loadJob (Some a); mret (setJob (Some j) s)
  end.

(** [reflect.DeepEqual] of two [FlinkClusterSpec] values in the store. *)
Definition DeepEqualSpec (x y : FlinkClusterSpec.t ptr) : M bool :=
  vx ← readSpec x;
  vy ← readSpec y;
  mret (DeepEqual vx vy).

(** Modelled from the spec: the generated [DeepCopy] is not among the
    sources; section 5 has the validator allocate a local scratch copy, and
    section 4.2 a clone of [old]: a new cluster cell, and a new job cell
    when there is a job, holding the values of the originals. *)
Definition DeepCopy (p : ptr) : M ptr :=
  match p with
  | None => mret None
  | Some _ =>
      c ← loadCluster p;
      job ← match Job (Spec c) with
            | None => mret None
            | Some a => j ← loadJob (Some a); alloc (JobCell j)
            end;
      alloc (ClusterCell (FlinkCluster.mk (ObjectMeta c) (setJob job (Spec c))))
  end.

Definition checkCancelRequested (old new : ptr) : M bool :=
  o ← loadCluster old;
  if isNil (Job (Spec o)) then mret false
  else
  n ← loadCluster new;
  if isNil (Job (Spec n)) then mret false
  else
  oldJob ← loadJob (Job (Spec o));
  newJob ← loadJob (Job (Spec n));
  let restartJob :=
    isTrue (JobSpec.CancelRequested oldJob)
    && isNilOrFalse (JobSpec.CancelRequested newJob) in
  if restartJob then fail ErrCancelRequestedTrueToFalse
  else
  let stopJob :=
    isNilOrFalse (JobSpec.CancelRequested oldJob)
    && isTrue (JobSpec.CancelRequested newJob) in
  if stopJob then
    (* Check if only `cancelRequested` changed, no other changes. *)
    oldCopy ← DeepCopy old;
    copy ← loadCluster oldCopy;
    copyJob ← loadJob (Job (Spec copy));
    newJob ← loadJob (Job (Spec n));
    storeJob (Job (Spec copy))
      (JobSpec.setCancelRequested (JobSpec.CancelRequested newJob) copyJob);;
    n ← loadCluster new;
    copy ← loadCluster oldCopy;
    DeepEqualSpec (Spec n) (Spec copy)
  else mret false.

Definition ValidateUpdate (old new : ptr) : M unit :=
  cancelRequested ← checkCancelRequested old new;
  if cancelRequested : bool then mret tt
  else
    n ← loadCluster new;
    o ← loadCluster old;
    equal ← DeepEqualSpec (Spec n) (Spec o);
    if negb equal then fail ErrNotUpdatable else mret tt.

(** The resource behind a pointer, every pointer followed; [None] when the
    pointer is nil or does not lead to cells of the right kind. *)
Definition snapshot (σ : store) (p : ptr) : option Cluster :=
  match p ≫= (λ a, σ !! a) with
  | Some (ClusterCell c) =>
      match Job (Spec c) with
      | None => Some (FlinkCluster.mk (ObjectMeta c) (setJob None (Spec c)))
      | Some a =>
          match σ !! a with
          | Some (JobCell j) =>
              Some (FlinkCluster.mk (ObjectMeta c) (setJob (Some j) (Spec c)))
          | _ => None
          end
      end
  | _ => None
  end.

(** A computation that leaves the store as it is. *)
Definition readOnly {A} (m : M A) : Prop := ∀ σ, (m σ).1 = σ.

(** The store once the clone of the cluster [o] with job [oldJob] was made
    and the clone's job cell overwritten: three updates, each at an address
    that was not in use. *)
Definition afterClone (σ : store) (o : FlinkCluster.t ptr)
    (oldJob : JobSpec.t) (cancelRequested : option bool) : store :=
  let a1 := fresh (dom σ) in
  let σ1 := <[a1 := JobCell oldJob]> σ in
  let a2 := fresh (dom σ1) in
  <[a1 := JobCell (JobSpec.setCancelRequested cancelRequested oldJob)]>
    (<[a2 := ClusterCell
               (FlinkCluster.mk (ObjectMeta o) (setJob (Some a1) (Spec o)))]>
       σ1).

End Mem.

(** ** Conditions on resources

    The predicates the properties are stated with, written from the rules of
    the specification and not from the validator's control flow, followed by
    the concrete resources the examples run on. *)

Section Conditions.

Import FlinkCluster FlinkClusterSpec.

(** The shared port rule: present and above 1024. *)
Definition portValid (port : option Z) : bool :=
  match port with
  | Some p => 1024 <? p
  | None => false
  end.

Definition managerPorts (jm : JobManagerSpec.t) : list (option Z) :=
  let ports := JobManagerSpec.Ports jm in
  [JobManagerPorts.RPC ports; JobManagerPorts.Blob ports;
   JobManagerPorts.Query ports; JobManagerPorts.UI ports].

Definition workerPorts (tm : TaskManagerSpec.t) : list (option Z) :=
  let ports := TaskManagerSpec.Ports tm in
  [TaskManagerPorts.RPC ports; TaskManagerPorts.Data ports;
   TaskManagerPorts.Query ports].

(** The seven port fields of a cluster. *)
Definition sevenPorts (cluster : Cluster) : list (option Z) :=
  managerPorts (JobManager (Spec cluster))
    ++ workerPorts (TaskManager (Spec cluster)).

(** The manager rules that come before the off-heap minimum: replicas
    exactly 1, a declared access scope, four valid ports, a ratio within
    0..100. *)
Definition managerValidBeforeOffHeapMin (jm : JobManagerSpec.t) : bool :=
  bool_decide (JobManagerSpec.Replicas jm = Some 1)
  && bool_decide (JobManagerSpec.AccessScope jm
                    ∈ [AccessScope.Cluster; AccessScope.VPC; AccessScope.External])
  && forallb portValid (managerPorts jm)
  && match JobManagerSpec.MemoryOffHeapRatio jm with
     | Some ratio => (0 <=? ratio) && (ratio <=? 100)
     | None => false
     end.

(** The memory limit of the manager in MB: bytes divided by 2^20, floored. *)
Definition memoryLimitMB (jm : JobManagerSpec.t) : Z :=
  Quantity.Value
    (ResourceList.Memory
       (ResourceRequirements.Limits (JobManagerSpec.Resources jm)))
    / 2 ^ 20.

(** The off-heap minimum rule as section 4.1 words it (not what the code
    does): the minimum is present and at most the limit in MB. *)
Definition offHeapMinRule (jm : JobManagerSpec.t) : res unit :=
  match JobManagerSpec.MemoryOffHeapMin jm with
  | None => Err ErrJobManagerOffHeapMinUnspecified
  | Some min =>
      if memoryLimitMB jm <? min then Err ErrJobManagerMemoryLimit else ok
  end.

(** The job rules other than the one on [CancelRequested]. *)
Definition jobValidApartFromCancel (job : JobSpec.t) : bool :=
  negb (bool_decide (JobSpec.JarFile job = ""))
  && match JobSpec.Parallelism job with
     | Some parallelism => 1 <=? parallelism
     | None => false
     end
  && match JobSpec.RestartPolicy job with
     | Some policy =>
         bool_decide (policy ∈ [RestartPolicyNever; RestartPolicyOnFailure])
     | None => false
     end
  && match JobSpec.CleanupPolicy job with
     | Some policy =>
         let actions :=
           [CleanupActionDeleteCluster; CleanupActionDeleteTaskManager;
            CleanupActionKeepCluster] in
         bool_decide (CleanupPolicy.AfterJobSucceeds policy ∈ actions)
         && bool_decide (CleanupPolicy.AfterJobFails policy ∈ actions)
     | None => false
     end.

(** The rejected transition: both sides have a job, and [CancelRequested]
    goes from true to false or absent. *)
Definition unCancel (old new : Cluster) : Prop :=
  ∃ oldJob newJob,
    Job (Spec old) = Some oldJob ∧ Job (Spec new) = Some newJob
    ∧ JobSpec.CancelRequested oldJob = Some true
    ∧ (JobSpec.CancelRequested newJob = None
       ∨ JobSpec.CancelRequested newJob = Some false).

(** [CancelRequested] goes from false or absent to true. *)
Definition cancelRaised (oldJob newJob : JobSpec.t) : Prop :=
  (JobSpec.CancelRequested oldJob = None
   ∨ JobSpec.CancelRequested oldJob = Some false)
  ∧ JobSpec.CancelRequested newJob = Some true.

(** Two jobs agree on every field other than [CancelRequested]. *)
Definition sameJobApartFromCancel (j1 j2 : JobSpec.t) : Prop :=
  JobSpec.JarFile j1 = JobSpec.JarFile j2
  ∧ JobSpec.Parallelism j1 = JobSpec.Parallelism j2
  ∧ JobSpec.RestartPolicy j1 = JobSpec.RestartPolicy j2
  ∧ JobSpec.CleanupPolicy j1 = JobSpec.CleanupPolicy j2.

(** Two specifications with jobs agree on every field other than the
    job's [CancelRequested]. *)
Definition sameSpecApartFromCancel
    (old new : ClusterSpec) (oldJob newJob : JobSpec.t) : Prop :=
  Image old = Image new
  ∧ JobManager old = JobManager new
  ∧ TaskManager old = TaskManager new
  ∧ sameJobApartFromCancel oldJob newJob.

(** The permitted transition: both sides have a job, the flag is raised,
    and nothing else in the specification differs. *)
Definition permittedCancel (old new : Cluster) : Prop :=
  ∃ oldJob newJob,
    Job (Spec old) = Some oldJob ∧ Job (Spec new) = Some newJob
    ∧ cancelRaised oldJob newJob
    ∧ sameSpecApartFromCancel (Spec old) (Spec new) oldJob newJob.

(** What [validatePort] returns for a port that fails the rule. *)
Definition portError (component name : string) (port : option Z) : error :=
  match port with
  | None => ErrPortUnspecified component name
  | Some p => ErrInvalidPort component name p
  end.

(** The port fields of the manager and of the worker with the names the
    validator reports them under, in the order it checks them. *)
Definition managerPortFields (jm : JobManagerSpec.t) : list (string * option Z) :=
  let ports := JobManagerSpec.Ports jm in
  [("rpc", JobManagerPorts.RPC ports); ("blob", JobManagerPorts.Blob ports);
   ("query", JobManagerPorts.Query ports); ("ui", JobManagerPorts.UI ports)].

Definition workerPortFields (tm : TaskManagerSpec.t) : list (string * option Z) :=
  let ports := TaskManagerSpec.Ports tm in
  [("rpc", TaskManagerPorts.RPC ports); ("data", TaskManagerPorts.Data ports);
   ("query", TaskManagerPorts.Query ports)].

(** The first field of a list whose port fails the rule. *)
Definition firstInvalidPort (fields : list (string * option Z))
    : option (string * option Z) :=
  List.find (λ field, negb (portValid field.2)) fields.

(** The pull policies, restart policies and cleanup actions the validator
    lets through. *)
Definition pullPolicies : list string :=
  [PullAlways; PullIfNotPresent; PullNever].
Definition restartPolicies : list string :=
  [RestartPolicyNever; RestartPolicyOnFailure].
Definition cleanupActions : list string :=
  [CleanupActionDeleteCluster; CleanupActionDeleteTaskManager;
   CleanupActionKeepCluster].
Definition accessScopes : list string :=
  [AccessScope.Cluster; AccessScope.VPC; AccessScope.External].

End Conditions.

(** *** Sample resources *)

Module Sample.

Definition managerPorts : JobManagerPorts.t :=
  JobManagerPorts.mk (Some 6123) (Some 6124) (Some 6125) (Some 8081).

(** The quantity 1Gi as parsed: 2^30 at scale 0, its canonical string
    cached. *)
Definition oneGi : Quantity.t :=
  Quantity.mk (2 ^ 30) 0 None "1Gi" Quantity.BinarySI (2 ^ 30).

(** The same amount written 1024Mi: not canonical, so no string is cached. *)
Definition oneGiAs1024Mi : Quantity.t :=
  Quantity.mk (2 ^ 30) 0 None "" Quantity.BinarySI (2 ^ 30).

(** A memory limit of 1Gi. *)
Definition resources : ResourceRequirements.t :=
  ResourceRequirements.mk (Some {[ ResourceList.ResourceMemory := oneGi ]})
    None.

(** A manager with an off-heap minimum of 600 MB under a limit of 1024 MB. *)
Definition manager : JobManagerSpec.t :=
  JobManagerSpec.mk (Some 1) AccessScope.VPC managerPorts resources
    (Some 25) (Some 600).

(** The same manager with no off-heap minimum. *)
Definition managerNoMin : JobManagerSpec.t :=
  JobManagerSpec.mk (Some 1) AccessScope.VPC managerPorts resources
    (Some 25) None.

Definition worker : TaskManagerSpec.t :=
  TaskManagerSpec.mk 2
    (TaskManagerPorts.mk (Some 6122) (Some 6121) (Some 6125)).

Definition job (cancelRequested : option bool) : JobSpec.t :=
  JobSpec.mk "/opt/flink/examples/WordCount.jar" (Some 2)
    (Some RestartPolicyNever)
    (Some (CleanupPolicy.mk CleanupActionDeleteCluster CleanupActionKeepCluster))
    cancelRequested.

Definition image : ImageSpec.t := ImageSpec.mk "flink:1.8.1" PullAlways.

Definition meta : ObjectMeta.t := ObjectMeta.mk "wordcount" "default".

Definition spec (cancelRequested : option bool) : ClusterSpec :=
  FlinkClusterSpec.mk image manager worker (Some (job cancelRequested)).

Definition cluster (cancelRequested : option bool) : Cluster :=
  FlinkCluster.mk meta (spec cancelRequested).

(** The cluster above, renamed. *)
Definition renamed : Cluster :=
  FlinkCluster.mk (ObjectMeta.mk "wordcount-2" "default") (spec None).


(** A cluster no create request would get through with: no image name, two
    managers, every port in the reserved range. *)
Definition invalid : Cluster :=
  FlinkCluster.mk meta
    (FlinkClusterSpec.mk (ImageSpec.mk "" PullAlways)
       (JobManagerSpec.mk (Some 2) AccessScope.VPC
          (JobManagerPorts.mk (Some 80) (Some 81) (Some 82) (Some 443))
          resources (Some 25) (Some 600))
       (TaskManagerSpec.mk 2
          (TaskManagerPorts.mk (Some 22) (Some 23) (Some 1024)))
       None).

(** The cluster above with its memory limit written 1024Mi. *)
Definition requantified (cancelRequested : option bool) : Cluster :=
  FlinkCluster.mk meta
    (FlinkClusterSpec.mk image
       (JobManagerSpec.mk (Some 1) AccessScope.VPC managerPorts
          (ResourceRequirements.mk
             (Some {[ ResourceList.ResourceMemory := oneGiAs1024Mi ]}) None)
          (Some 25) (Some 600))
       worker (Some (job cancelRequested))).

(** A store holding [cluster None] at address 1 and [cluster (Some true)]
    at address 3, their jobs at addresses 2 and 4. *)
Definition store : Mem.store :=
  {[ 1%positive :=
       Mem.ClusterCell
         (FlinkCluster.mk meta
            (FlinkClusterSpec.mk image manager worker (Some 2%positive)));
     2%positive := Mem.JobCell (job None);
     3%positive :=
       Mem.ClusterCell
         (FlinkCluster.mk meta
            (FlinkClusterSpec.mk image manager worker (Some 4%positive)));
     4%positive := Mem.JobCell (job (Some true)) ]}.

End Sample.

(** ** Properties of the validator *)

Section ValidatorFacts.

Import FlinkCluster FlinkClusterSpec.

Lemma validatePort_valid port name component :
  portValid port = true → validatePort port name component = ok.
Proof.
  destruct port as [p|]; simpl; [|done].
  intros Hp%Z.ltb_lt. destruct (Z.leb_spec p 1024); [lia|done].
Qed.

Lemma validatePort_invalid port name component :
  portValid port = false →
  validatePort port name component
  = Err (match port with
         | Some p => ErrInvalidPort component name p
         | None => ErrPortUnspecified component name
         end).
Proof.
  destruct port as [p|]; simpl; [|done].
  intros Hp%Z.ltb_ge. destruct (Z.leb_spec p 1024); [done|lia].
Qed.

Lemma len_zero s : (len s =? 0) = bool_decide (s = "").
Proof. by destruct s. Qed.

(** Case analysis on one port check of a sequence: go on when the port is
    valid, stop with its error when it is not. *)
Ltac port_case port :=
  let H := fresh "Hport" in
  destruct (portValid port) eqn:H;
  [ rewrite (validatePort_valid port) by done
  | rewrite (validatePort_invalid port) by done; simpl; by eauto ].

Lemma managerValidBeforeOffHeapMin_spec jm :
  managerValidBeforeOffHeapMin jm = true ↔
    JobManagerSpec.Replicas jm = Some 1
    ∧ JobManagerSpec.AccessScope jm
        ∈ [AccessScope.Cluster; AccessScope.VPC; AccessScope.External]
    ∧ Forall (λ port, portValid port = true) (managerPorts jm)
    ∧ ∃ ratio, JobManagerSpec.MemoryOffHeapRatio jm = Some ratio
               ∧ 0 ≤ ratio ≤ 100.
Proof.
  unfold managerValidBeforeOffHeapMin.
  rewrite !andb_true_iff, !bool_decide_eq_true, forallb_forall, Forall_forall.
  setoid_rewrite <- list_elem_of_In.
  destruct (JobManagerSpec.MemoryOffHeapRatio jm) as [ratio|].
  - rewrite andb_true_iff, !Z.leb_le. split.
    + intros [[[? ?] ?] ?]. eauto 10.
    + intros (? & ? & ? & r & [= <-] & ?). done.
  - split; [intros [_ [=]] | intros (_ & _ & _ & r & [=] & _)].
Qed.

Lemma accessScope_switch scope :
  String.eqb scope AccessScope.Cluster || String.eqb scope AccessScope.VPC
    || String.eqb scope AccessScope.External
  = bool_decide
      (scope ∈ [AccessScope.Cluster; AccessScope.VPC; AccessScope.External]).
Proof.
  destruct (String.eqb_spec scope AccessScope.Cluster) as [->|?]; [done|].
  destruct (String.eqb_spec scope AccessScope.VPC) as [->|?]; [done|].
  destruct (String.eqb_spec scope AccessScope.External) as [->|?]; [done|].
  symmetry. apply bool_decide_eq_false.
  rewrite !elem_of_cons, elem_of_nil. tauto.
Qed.

(** Past the ratio check the manager check has two ways to end, and neither
    is a nil error. *)
Lemma validateJobManager_at_offHeapMin jm :
  managerValidBeforeOffHeapMin jm = true →
  validateJobManager jm
  = match JobManagerSpec.MemoryOffHeapMin jm with
    | Some _ => Err ErrJobManagerOffHeapMinUnspecified
    | None => Panic
    end.
Proof.
  intros (Hrep & Hscope & Hports & ratio & Hratio & Hrange)
    %managerValidBeforeOffHeapMin_spec.
  unfold managerPorts in Hports.
  apply Forall_cons in Hports as [Hrpc Hports].
  apply Forall_cons in Hports as [Hblob Hports].
  apply Forall_cons in Hports as [Hquery Hports].
  apply Forall_cons in Hports as [Hui _].
  unfold validateJobManager.
  rewrite Hrep, accessScope_switch, (bool_decide_eq_true_2 _ Hscope). simpl.
  rewrite !validatePort_valid by done. simpl.
  rewrite Hratio.
  destruct (Z.gtb_spec ratio 100); [lia|].
  destruct (Z.ltb_spec ratio 0); [lia|]. simpl.
  by destruct (JobManagerSpec.MemoryOffHeapMin jm).
Qed.

(** Before that point every way out is an error. *)
Lemma validateJobManager_before_offHeapMin jm :
  managerValidBeforeOffHeapMin jm = false →
  ∃ e, validateJobManager jm = Err e.
Proof.
  unfold managerValidBeforeOffHeapMin, managerPorts, validateJobManager.
  rewrite accessScope_switch. simpl forallb.
  destruct (JobManagerSpec.Replicas jm) as [replicas|]; [|by eauto].
  destruct (Z.eqb_spec replicas 1) as [->|?]; [|by eauto]. simpl.
  destruct (bool_decide _); [|by eauto]. simpl.
  port_case (JobManagerPorts.RPC (JobManagerSpec.Ports jm)).
  port_case (JobManagerPorts.Blob (JobManagerSpec.Ports jm)).
  port_case (JobManagerPorts.Query (JobManagerSpec.Ports jm)).
  port_case (JobManagerPorts.UI (JobManagerSpec.Ports jm)).
  simpl.
  destruct (JobManagerSpec.MemoryOffHeapRatio jm) as [ratio|]; [|by eauto].
  destruct (Z.gtb_spec ratio 100); [by eauto|].
  destruct (Z.ltb_spec ratio 0); [by eauto|].
  destruct (Z.leb_spec 0 ratio); [|lia].
  destruct (Z.leb_spec ratio 100); [|lia]. done.
Qed.

Lemma validateJobManager_never_ok jm : validateJobManager jm ≠ ok.
Proof.
  destruct (managerValidBeforeOffHeapMin jm) eqn:Hvalid.
  - rewrite validateJobManager_at_offHeapMin by done.
    by destruct (JobManagerSpec.MemoryOffHeapMin jm).
  - destruct (validateJobManager_before_offHeapMin jm Hvalid) as [e ->]. done.
Qed.

Lemma ValidateCreate_never_ok cluster : ValidateCreate cluster ≠ ok.
Proof.
  unfold ValidateCreate.
  destruct (validateMeta _) as [[]| |]; [simpl|done..].
  destruct (validateImage _) as [[]| |]; [simpl|done..].
  pose proof (validateJobManager_never_ok (JobManager (Spec cluster))).
  by destruct (validateJobManager _) as [[]| |].
Qed.

(** The memory limit is computed and never compared: the manager check
    gives the same result under any resource requirements. *)
Lemma validateJobManager_limit_unread jm resources :
  validateJobManager
    (JobManagerSpec.mk (JobManagerSpec.Replicas jm)
       (JobManagerSpec.AccessScope jm) (JobManagerSpec.Ports jm) resources
       (JobManagerSpec.MemoryOffHeapRatio jm)
       (JobManagerSpec.MemoryOffHeapMin jm))
  = validateJobManager jm.
Proof.
  unfold validateJobManager. simpl.
  by destruct (JobManagerSpec.MemoryOffHeapMin jm).
Qed.

Lemma portValid_false port :
  portValid port = false ↔ port = None ∨ ∃ p, port = Some p ∧ p ≤ 1024.
Proof.
  destruct port as [p|]; simpl.
  - rewrite Z.ltb_ge. split; [eauto|]. by intros [[=]|(? & [= <-] & ?)].
  - split; [by left|done].
Qed.

Lemma validateJobManager_invalid_port jm port :
  port ∈ managerPorts jm → portValid port = false →
  ∃ e, validateJobManager jm = Err e.
Proof.
  intros Hin Hport. apply validateJobManager_before_offHeapMin.
  apply not_true_is_false.
  intros (_ & _ & Hports & _)%managerValidBeforeOffHeapMin_spec.
  rewrite Forall_forall in Hports. apply Hports in Hin. congruence.
Qed.

Lemma validateTaskManager_invalid_port tm port :
  port ∈ workerPorts tm → portValid port = false →
  ∃ e, validateTaskManager tm = Err e.
Proof.
  unfold workerPorts, validateTaskManager. intros Hin Hport.
  destruct (_ <? 1); [by eauto|]. simpl in *.
  port_case (TaskManagerPorts.RPC (TaskManagerSpec.Ports tm)).
  port_case (TaskManagerPorts.Data (TaskManagerSpec.Ports tm)).
  port_case (TaskManagerPorts.Query (TaskManagerSpec.Ports tm)).
  rewrite !elem_of_cons, elem_of_nil in Hin.
  destruct Hin as [->|[->|[->|[]]]]; congruence.
Qed.

Lemma validateCleanupAction_declared property value :
  value ∈ [CleanupActionDeleteCluster; CleanupActionDeleteTaskManager;
           CleanupActionKeepCluster] →
  validateCleanupAction property value = ok.
Proof.
  rewrite !elem_of_cons, elem_of_nil. by intros [->|[->|[->|[]]]].
Qed.

Lemma validateJob_at_cancelRequested job :
  jobValidApartFromCancel job = true →
  validateJob (Some job)
  = if isTrue (JobSpec.CancelRequested job)
    then Err ErrCancelRequestedForNewJob else ok.
Proof.
  unfold jobValidApartFromCancel, validateJob.
  rewrite len_zero.
  destruct (bool_decide (JobSpec.JarFile job = "")); [done|].
  destruct (JobSpec.Parallelism job) as [parallelism|];
    [|by rewrite andb_false_r].
  destruct (Z.leb_spec 1 parallelism), (Z.ltb_spec parallelism 1);
    [lia|simpl|done..].
  destruct (JobSpec.RestartPolicy job) as [policy|]; [|done].
  destruct (JobSpec.CleanupPolicy job) as [cleanup|];
    [|by rewrite andb_false_r].
  rewrite !andb_true_iff, !bool_decide_eq_true.
  intros [Hpolicy [Hsucceeds Hfails]].
  rewrite !elem_of_cons, elem_of_nil in Hpolicy.
  rewrite !validateCleanupAction_declared by done.
  by destruct Hpolicy as [->|[->|[]]].
Qed.

(** *** The update path *)

Lemma DeepEqual_true {A} `{EqDecision A} (x y : A) :
  DeepEqual x y = true ↔ x = y.
Proof. apply bool_decide_eq_true. Qed.

Lemma DeepEqual_false {A} `{EqDecision A} (x y : A) :
  DeepEqual x y = false ↔ x ≠ y.
Proof. apply bool_decide_eq_false. Qed.

(** The clone-and-overwrite comparison of [checkCancelRequested] says that
    no field other than [CancelRequested] differs. *)
Lemma overwritten_clone_equal (old new : ClusterSpec) oldJob newJob :
  Job old = Some oldJob → Job new = Some newJob →
  new = setJob (Some (JobSpec.setCancelRequested
                        (JobSpec.CancelRequested newJob) oldJob)) old
  ↔ sameSpecApartFromCancel old new oldJob newJob.
Proof.
  destruct old, new, oldJob, newJob.
  unfold sameSpecApartFromCancel, sameJobApartFromCancel, setJob,
    JobSpec.setCancelRequested.
  simpl. intros -> ->. split.
  - by intros [= -> -> -> -> -> -> ->].
  - by intros (-> & -> & -> & -> & -> & -> & ->).
Qed.

Lemma isNilOrFalse_spec p : isNilOrFalse p = true ↔ p = None ∨ p = Some false.
Proof. destruct p as [[]|]; simpl; intuition congruence. Qed.

Lemma isTrue_spec p : isTrue p = true ↔ p = Some true.
Proof. destruct p as [[]|]; simpl; intuition congruence. Qed.

(** [checkCancelRequested] when both sides have a job. *)
Lemma checkCancelRequested_jobs old new oldJob newJob :
  Job (Spec old) = Some oldJob → Job (Spec new) = Some newJob →
  checkCancelRequested old new
  = if isTrue (JobSpec.CancelRequested oldJob)
       && isNilOrFalse (JobSpec.CancelRequested newJob)
    then Err ErrCancelRequestedTrueToFalse
    else if isNilOrFalse (JobSpec.CancelRequested oldJob)
            && isTrue (JobSpec.CancelRequested newJob)
    then Val (DeepEqual (Spec new)
                (setJob (Some (JobSpec.setCancelRequested
                                 (JobSpec.CancelRequested newJob) oldJob))
                   (Spec old)))
    else Val false.
Proof.
  intros Hold Hnew. unfold checkCancelRequested, DeepCopy.
  rewrite Hold, Hnew. simpl. by repeat case_match.
Qed.

Lemma checkCancelRequested_no_job old new :
  Job (Spec old) = None ∨ Job (Spec new) = None →
  checkCancelRequested old new = Val false.
Proof.
  unfold checkCancelRequested. intros [-> | ->]; [done|by case_match].
Qed.

Lemma checkCancelRequested_unCancel old new :
  unCancel old new →
  checkCancelRequested old new = Err ErrCancelRequestedTrueToFalse.
Proof.
  intros (oldJob & newJob & Hold & Hnew & Hwas & Hnow).
  rewrite (checkCancelRequested_jobs _ _ _ _ Hold Hnew), Hwas.
  by destruct Hnow as [-> | ->].
Qed.

Lemma checkCancelRequested_permitted old new :
  permittedCancel old new → checkCancelRequested old new = Val true.
Proof.
  intros (oldJob & newJob & Hold & Hnew & [Hwas Hnow] & Hsame).
  rewrite (checkCancelRequested_jobs _ _ _ _ Hold Hnew).
  apply (overwritten_clone_equal _ _ _ _ Hold Hnew), DeepEqual_true in Hsame.
  rewrite Hsame, Hnow.
  by destruct Hwas as [-> | ->].
Qed.

Lemma checkCancelRequested_otherwise old new :
  ¬ unCancel old new → ¬ permittedCancel old new →
  checkCancelRequested old new = Val false.
Proof.
  intros Hun Hperm.
  destruct (Job (Spec old)) as [oldJob|] eqn:Hold;
    [|apply checkCancelRequested_no_job; by left].
  destruct (Job (Spec new)) as [newJob|] eqn:Hnew;
    [|apply checkCancelRequested_no_job; by right].
  rewrite (checkCancelRequested_jobs _ _ _ _ Hold Hnew).
  destruct (isTrue (JobSpec.CancelRequested oldJob)
            && isNilOrFalse (JobSpec.CancelRequested newJob)) eqn:Hrestart.
  { destruct Hun. exists oldJob, newJob.
    apply andb_true_iff in Hrestart as [?%isTrue_spec ?%isNilOrFalse_spec].
    done. }
  destruct (isNilOrFalse (JobSpec.CancelRequested oldJob)
            && isTrue (JobSpec.CancelRequested newJob)) eqn:Hstop; [|done].
  f_equal. apply DeepEqual_false. intros Heq. destruct Hperm.
  exists oldJob, newJob.
  apply andb_true_iff in Hstop as [?%isNilOrFalse_spec ?%isTrue_spec].
  split_and!; [done..|]. by apply overwritten_clone_equal.
Qed.

(** A raised flag is a difference between the two specifications. *)
Lemma cancelRaised_differs (old new : Cluster) oldJob newJob :
  Job (Spec old) = Some oldJob → Job (Spec new) = Some newJob →
  cancelRaised oldJob newJob → Spec new ≠ Spec old.
Proof.
  intros Hold Hnew [Hwas Hnow] Heq. rewrite Heq, Hold in Hnew.
  injection Hnew as ->. destruct Hwas; congruence.
Qed.

End ValidatorFacts.

(** ** Properties of the update path over the store *)

Section StoreFacts.

Import FlinkCluster FlinkClusterSpec.

Implicit Types (σ : Mem.store) (p : Mem.ptr) (a : Mem.addr).

#[local] Arguments Mem.DeepCopy : simpl never.
#[local] Arguments Mem.loadCluster : simpl never.
#[local] Arguments Mem.loadJob : simpl never.
#[local] Arguments Mem.storeJob : simpl never.
#[local] Arguments Mem.alloc : simpl never.

Lemma bind_run {A B} (m : Mem.M A) (k : A → Mem.M B) σ :
  (m ≫= k) σ
  = match m σ with
    | (σ', Val x) => k x σ'
    | (σ', Err e) => (σ', Err e)
    | (σ', Panic) => (σ', Panic)
    end.
Proof. reflexivity. Qed.

Lemma loadCluster_run σ a c :
  σ !! a = Some (Mem.ClusterCell c) → Mem.loadCluster (Some a) σ = (σ, Val c).
Proof. unfold Mem.loadCluster. simpl. by intros ->. Qed.

Lemma loadJob_run σ a j :
  σ !! a = Some (Mem.JobCell j) → Mem.loadJob (Some a) σ = (σ, Val j).
Proof. unfold Mem.loadJob. simpl. by intros ->. Qed.

Lemma loadCluster_cases σ p :
  (∃ a c, p = Some a ∧ σ !! a = Some (Mem.ClusterCell c)
          ∧ Mem.loadCluster p σ = (σ, Val c))
  ∨ Mem.loadCluster p σ = (σ, Panic).
Proof.
  unfold Mem.loadCluster. destruct p as [a|]; simpl; [|by right].
  destruct (σ !! a) as [[c|j]|] eqn:Ha; [left|by right..]. eauto.
Qed.

Lemma loadJob_cases σ p :
  (∃ a j, p = Some a ∧ σ !! a = Some (Mem.JobCell j)
          ∧ Mem.loadJob p σ = (σ, Val j))
  ∨ Mem.loadJob p σ = (σ, Panic).
Proof.
  unfold Mem.loadJob. destruct p as [a|]; simpl; [|by right].
  destruct (σ !! a) as [[c|j]|] eqn:Ha; [by right|left|by right]. eauto.
Qed.

Lemma fresh_lookup σ : σ !! fresh (dom σ) = None.
Proof. apply not_elem_of_dom, is_fresh. Qed.

(** The clone of a cluster with a job: two new cells, the old ones as they
    were. *)
Lemma DeepCopy_run σ a c b j :
  σ !! a = Some (Mem.ClusterCell c) → Job (Spec c) = Some b →
  σ !! b = Some (Mem.JobCell j) →
  let a1 := fresh (dom σ) in
  let σ1 := <[a1 := Mem.JobCell j]> σ in
  let a2 := fresh (dom σ1) in
  Mem.DeepCopy (Some a) σ
  = (<[a2 := Mem.ClusterCell
               (FlinkCluster.mk (ObjectMeta c) (setJob (Some a1) (Spec c)))]> σ1,
     Val (Some a2)).
Proof.
  intros Ha Hjob Hb. unfold Mem.DeepCopy.
  rewrite bind_run, (loadCluster_run _ _ _ Ha), Hjob.
  rewrite bind_run, bind_run, (loadJob_run _ _ _ Hb). reflexivity.
Qed.

Lemma snapshot_Some σ p cluster :
  Mem.snapshot σ p = Some cluster ↔
  ∃ a c, p = Some a ∧ σ !! a = Some (Mem.ClusterCell c)
    ∧ ((Job (Spec c) = None
        ∧ cluster = FlinkCluster.mk (ObjectMeta c) (setJob None (Spec c)))
       ∨ ∃ b j, Job (Spec c) = Some b ∧ σ !! b = Some (Mem.JobCell j)
           ∧ cluster
             = FlinkCluster.mk (ObjectMeta c) (setJob (Some j) (Spec c))).
Proof.
  unfold Mem.snapshot. split.
  - destruct p as [a|]; simpl; [|done].
    destruct (σ !! a) as [[c|]|] eqn:Ha; [|done..].
    destruct (Job (Spec c)) as [b|] eqn:Hjob.
    + destruct (σ !! b) as [[|j]|] eqn:Hb; [done| |done].
      intros [= <-]. exists a, c. split_and!; [done..|].
      right. by exists b, j.
    + intros [= <-]. exists a, c. split_and!; [done..|]. by left.
  - intros (a & c & -> & Ha & [[Hjob ->]|(b & j & Hjob & Hb & ->)]);
      simpl; rewrite Ha, Hjob; [done|]. by rewrite Hb.
Qed.

Lemma snapshot_weaken σ σ' p cluster :
  σ ⊆ σ' → Mem.snapshot σ p = Some cluster → Mem.snapshot σ' p = Some cluster.
Proof.
  intros Hsub (a & c & -> & Ha & Hjob)%snapshot_Some.
  apply snapshot_Some. exists a, c. split; [done|].
  split; [by eapply lookup_weaken|].
  destruct Hjob as [?|(b & j & ? & Hb & ?)]; [by left|right].
  exists b, j. split_and!; [done| |done]. by eapply lookup_weaken.
Qed.

(** *** Computations that leave the store as it is *)

Lemma readOnly_ret {A} (x : A) : Mem.readOnly (mret x : Mem.M A).
Proof. done. Qed.

Lemma readOnly_fail {A} e : Mem.readOnly (Mem.fail e : Mem.M A).
Proof. done. Qed.

Lemma readOnly_bind {A B} (m : Mem.M A) (k : A → Mem.M B) :
  Mem.readOnly m → (∀ x, Mem.readOnly (k x)) → Mem.readOnly (m ≫= k).
Proof.
  intros Hm Hk σ. rewrite bind_run. specialize (Hm σ).
  destruct (m σ) as [σ' [x| |]]; simpl in *; subst; [apply Hk|done..].
Qed.

Lemma readOnly_loadCluster p : Mem.readOnly (Mem.loadCluster p).
Proof. intros σ. by destruct (loadCluster_cases σ p) as [(?&?&?&?&->)| ->]. Qed.

Lemma readOnly_loadJob p : Mem.readOnly (Mem.loadJob p).
Proof. intros σ. by destruct (loadJob_cases σ p) as [(?&?&?&?&->)| ->]. Qed.

Lemma readOnly_readSpec s : Mem.readOnly (Mem.readSpec s).
Proof.
  unfold Mem.readSpec. destruct (Job s); [|apply readOnly_ret].
  apply readOnly_bind; [apply readOnly_loadJob|]. intros. apply readOnly_ret.
Qed.

Lemma readOnly_DeepEqualSpec x y : Mem.readOnly (Mem.DeepEqualSpec x y).
Proof.
  unfold Mem.DeepEqualSpec.
  repeat (apply readOnly_bind; [apply readOnly_readSpec|]; intros).
  apply readOnly_ret.
Qed.

(** *** Running [checkCancelRequested] *)

Lemma afterClone_extends σ o oldJob cancelRequested :
  σ ⊆ Mem.afterClone σ o oldJob cancelRequested.
Proof.
  unfold Mem.afterClone.
  set (a1 := fresh (dom σ)).
  set (σ1 := <[a1 := Mem.JobCell oldJob]> σ).
  set (a2 := fresh (dom σ1)).
  assert (σ !! a1 = None) as Ha1 by apply fresh_lookup.
  assert (σ1 !! a2 = None) as Ha2 by apply fresh_lookup.
  assert (σ !! a2 = None).
  { unfold σ1 in Ha2. apply lookup_insert_None in Ha2 as [? _]. done. }
  repeat (apply insert_subseteq_r; [done|]). done.
Qed.

(** With both clusters and both jobs in the store, the call runs to its
    end: it allocates and writes only on the clone-and-compare path, and
    its result is the one computed on the snapshots. *)
Lemma checkCancelRequested_run σ a o b oldJob a' n b' newJob :
  σ !! a = Some (Mem.ClusterCell o) → Job (Spec o) = Some b →
  σ !! b = Some (Mem.JobCell oldJob) →
  σ !! a' = Some (Mem.ClusterCell n) → Job (Spec n) = Some b' →
  σ !! b' = Some (Mem.JobCell newJob) →
  Mem.checkCancelRequested (Some a) (Some a') σ
  = if isTrue (JobSpec.CancelRequested oldJob)
       && isNilOrFalse (JobSpec.CancelRequested newJob)
    then (σ, Err ErrCancelRequestedTrueToFalse)
    else if isNilOrFalse (JobSpec.CancelRequested oldJob)
            && isTrue (JobSpec.CancelRequested newJob)
    then (Mem.afterClone σ o oldJob (JobSpec.CancelRequested newJob),
          Val (DeepEqual (setJob (Some newJob) (Spec n))
                 (setJob (Some (JobSpec.setCancelRequested
                                  (JobSpec.CancelRequested newJob) oldJob))
                    (Spec o))))
    else (σ, Val false).
Proof.
  intros Ha Hjob Hb Ha' Hjob' Hb'. unfold Mem.checkCancelRequested.
  rewrite bind_run, (loadCluster_run _ _ _ Ha), Hjob. simpl.
  rewrite bind_run, (loadCluster_run _ _ _ Ha'), Hjob'. simpl.
  rewrite bind_run, (loadJob_run _ _ _ Hb).
  rewrite bind_run, (loadJob_run _ _ _ Hb').
  destruct (_ && _); [done|]. destruct (_ && _); [|done].
  rewrite bind_run, (DeepCopy_run _ _ _ _ _ Ha Hjob Hb). cbv zeta.
  unfold Mem.afterClone.
  set (a1 := fresh (dom σ)).
  set (σ1 := <[a1 := Mem.JobCell oldJob]> σ).
  set (a2 := fresh (dom σ1)).
  set (copy := FlinkCluster.mk (ObjectMeta o) (setJob (Some a1) (Spec o))).
  set (σ2 := <[a2 := Mem.ClusterCell copy]> σ1).
  assert (σ !! a1 = None) as Ha1 by apply fresh_lookup.
  assert (σ1 !! a2 = None) as Ha2 by apply fresh_lookup.
  assert (a2 ≠ a1 ∧ σ !! a2 = None) as [Hne Ha2'].
  { unfold σ1 in Ha2. apply lookup_insert_None in Ha2 as [? ?]. done. }
  assert (∀ i c, σ !! i = Some c → i ≠ a1 ∧ i ≠ a2) as Hold.
  { intros i c Hi. split; intros ->; congruence. }
  assert (σ2 !! a1 = Some (Mem.JobCell oldJob)) as Hcopyjob.
  { unfold σ2, σ1. by rewrite lookup_insert_ne, lookup_insert_eq. }
  rewrite bind_run, (loadCluster_run σ2 a2 copy) by apply lookup_insert_eq.
  simpl Job.
  rewrite bind_run, (loadJob_run σ2 a1 oldJob) by done.
  rewrite bind_run, (loadJob_run σ2 b' newJob).
  2: { destruct (Hold _ _ Hb'). unfold σ2, σ1. by rewrite !lookup_insert_ne. }
  rewrite bind_run. unfold Mem.storeJob at 1. rewrite Hcopyjob.
  set (σ3 := <[a1 := _]> σ2).
  rewrite bind_run, (loadCluster_run σ3 a' n).
  2: { destruct (Hold _ _ Ha'). unfold σ3, σ2, σ1. by rewrite !lookup_insert_ne. }
  rewrite bind_run, (loadCluster_run σ3 a2 copy).
  2: { unfold σ3, σ2. by rewrite lookup_insert_ne, lookup_insert_eq. }
  unfold Mem.DeepEqualSpec, Mem.readSpec. rewrite Hjob'. simpl Job.
  rewrite !bind_run, (loadJob_run σ3 b' newJob).
  2: { destruct (Hold _ _ Hb'). unfold σ3, σ2, σ1. by rewrite !lookup_insert_ne. }
  simpl. rewrite !bind_run, (loadJob_run σ3 a1 _) by apply lookup_insert_eq.
  reflexivity.
Qed.

Lemma checkCancelRequested_extends σ old new :
  σ ⊆ (Mem.checkCancelRequested old new σ).1.
Proof.
  destruct (loadCluster_cases σ old) as [(a & o & -> & Ha & Hload)|Hload];
    [|unfold Mem.checkCancelRequested; by rewrite bind_run, Hload].
  destruct (Job (Spec o)) as [b|] eqn:Hjob;
    [|unfold Mem.checkCancelRequested; by rewrite bind_run, Hload, Hjob].
  destruct (loadCluster_cases σ new) as [(a' & n & -> & Ha' & Hload')|Hload'];
    [|unfold Mem.checkCancelRequested;
      rewrite bind_run, Hload, Hjob; simpl; by rewrite bind_run, Hload'].
  destruct (Job (Spec n)) as [b'|] eqn:Hjob';
    [|unfold Mem.checkCancelRequested;
      rewrite bind_run, Hload, Hjob; simpl;
      by rewrite bind_run, Hload', Hjob'].
  destruct (loadJob_cases σ (Some b))
    as [(? & oldJob & [= <-] & Hb & _)|Hloadjob];
    [|unfold Mem.checkCancelRequested;
      rewrite bind_run, Hload, Hjob; simpl;
      rewrite bind_run, Hload', Hjob'; simpl;
      by rewrite bind_run, Hloadjob].
  destruct (loadJob_cases σ (Some b'))
    as [(? & newJob & [= <-] & Hb' & _)|Hloadjob'];
    [|unfold Mem.checkCancelRequested;
      rewrite bind_run, Hload, Hjob; simpl;
      rewrite bind_run, Hload', Hjob'; simpl;
      by rewrite bind_run, (loadJob_run _ _ _ Hb), bind_run, Hloadjob'].
  rewrite (checkCancelRequested_run _ _ _ _ _ _ _ _ _ Ha Hjob Hb Ha' Hjob' Hb').
  destruct (_ && _); [done|]. destruct (_ && _); [|done].
  apply afterClone_extends.
Qed.

Lemma checkCancelRequested_refines σ old new oldCluster newCluster :
  Mem.snapshot σ old = Some oldCluster → Mem.snapshot σ new = Some newCluster →
  (Mem.checkCancelRequested old new σ).2
  = checkCancelRequested oldCluster newCluster.
Proof.
  intros (a & o & -> & Ha & Hold)%snapshot_Some
         (a' & n & -> & Ha' & Hnew)%snapshot_Some.
  destruct Hold as [[Hjob ->]|(b & oldJob & Hjob & Hb & ->)].
  { unfold Mem.checkCancelRequested.
    by rewrite bind_run, (loadCluster_run _ _ _ Ha), Hjob. }
  destruct Hnew as [[Hjob' ->]|(b' & newJob & Hjob' & Hb' & ->)].
  { unfold Mem.checkCancelRequested.
    rewrite bind_run, (loadCluster_run _ _ _ Ha), Hjob. simpl.
    rewrite bind_run, (loadCluster_run _ _ _ Ha'), Hjob'. simpl.
    done. }
  rewrite (checkCancelRequested_run _ _ _ _ _ _ _ _ _ Ha Hjob Hb Ha' Hjob' Hb').
  rewrite (checkCancelRequested_jobs _ _ oldJob newJob) by done.
  by repeat case_match.
Qed.

(** *** Running [ValidateUpdate] *)

Lemma readSpec_snapshot σ a c cluster :
  σ !! a = Some (Mem.ClusterCell c) →
  Mem.snapshot σ (Some a) = Some cluster →
  Mem.readSpec (Spec c) σ = (σ, Val (Spec cluster)).
Proof.
  intros Ha (? & c' & [= <-] & Ha' & Hjob)%snapshot_Some.
  rewrite Ha in Ha'. injection Ha' as <-. unfold Mem.readSpec.
  destruct Hjob as [[-> ->]|(b & j & -> & Hb & ->)]; [done|].
  by rewrite bind_run, (loadJob_run _ _ _ Hb).
Qed.

Lemma ValidateUpdate_extends σ old new :
  σ ⊆ (Mem.ValidateUpdate old new σ).1.
Proof.
  unfold Mem.ValidateUpdate. rewrite bind_run.
  pose proof (checkCancelRequested_extends σ old new) as Hsub.
  destruct (Mem.checkCancelRequested old new σ) as [σ1 [[]| |]];
    [done| |done..].
  match goal with |- _ ⊆ (?m _).1 => assert (Mem.readOnly m) as -> end; [|done].
  repeat (apply readOnly_bind; [apply readOnly_loadCluster|]; intros).
  apply readOnly_bind; [apply readOnly_DeepEqualSpec|].
  intros []; [apply readOnly_ret|apply readOnly_fail].
Qed.

Lemma ValidateUpdate_refines σ old new oldCluster newCluster :
  Mem.snapshot σ old = Some oldCluster →
  Mem.snapshot σ new = Some newCluster →
  (Mem.ValidateUpdate old new σ).2 = ValidateUpdate oldCluster newCluster.
Proof.
  intros Hold Hnew. unfold Mem.ValidateUpdate, ValidateUpdate.
  rewrite bind_run.
  pose proof (checkCancelRequested_refines σ old new _ _ Hold Hnew) as Href.
  pose proof (checkCancelRequested_extends σ old new) as Hsub.
  destruct (Mem.checkCancelRequested old new σ) as [σ1 r].
  simpl in Href, Hsub. rewrite <- Href.
  destruct r as [[]| |]; [done| |done..]. simpl.
  apply (snapshot_weaken _ _ _ _ Hsub) in Hold, Hnew.
  pose proof Hold as (a & o & -> & Ha & _)%snapshot_Some.
  pose proof Hnew as (a' & n & -> & Ha' & _)%snapshot_Some.
  rewrite bind_run, (loadCluster_run _ _ _ Ha').
  rewrite bind_run, (loadCluster_run _ _ _ Ha).
  unfold Mem.DeepEqualSpec.
  rewrite !bind_run, (readSpec_snapshot _ _ _ _ Ha' Hnew).
  rewrite !bind_run, (readSpec_snapshot _ _ _ _ Ha Hold).
  simpl. by destruct (DeepEqual _ _).
Qed.

(** The rejected transition over the store: the error, and the store as it
    was. *)
Lemma ValidateUpdate_rejected_unCancel_store σ old new oldCluster newCluster :
  Mem.snapshot σ old = Some oldCluster →
  Mem.snapshot σ new = Some newCluster →
  unCancel oldCluster newCluster →
  Mem.ValidateUpdate old new σ = (σ, Err ErrCancelRequestedTrueToFalse).
Proof.
  intros (a & o & -> & Ha & Hold)%snapshot_Some
         (a' & n & -> & Ha' & Hnew)%snapshot_Some
         (oldJob & newJob & Hjob & Hjob' & Hwas & Hnow).
  destruct Hold as [[_ ->]|(b & oldJob' & Hb & Hcell & ->)]; [done|].
  destruct Hnew as [[_ ->]|(b' & newJob' & Hb' & Hcell' & ->)]; [done|].
  simpl in Hjob, Hjob'. injection Hjob as ->. injection Hjob' as ->.
  unfold Mem.ValidateUpdate.
  rewrite bind_run,
    (checkCancelRequested_run _ _ _ _ _ _ _ _ _ Ha Hb Hcell Ha' Hb' Hcell').
  rewrite Hwas. by destruct Hnow as [-> | ->].
Qed.

End StoreFacts.

(** ** The claims *)

Section Claims.

Import FlinkCluster FlinkClusterSpec.

Lemma validateMeta_returns meta :
  validateMeta meta = ok ∨ ∃ e, validateMeta meta = Err e.
Proof. unfold validateMeta. repeat case_match; eauto. Qed.

Lemma validateImage_returns imageSpec :
  validateImage imageSpec = ok ∨ ∃ e, validateImage imageSpec = Err e.
Proof. unfold validateImage. repeat case_match; eauto. Qed.

Lemma jmMemLimit_exact bytes :
  Z.abs bytes < 2 ^ 53 →
  float64_of_int64 bytes / float64_of_int64 (Quantity.Value Quantity.oneMi)
  = bytes / 2 ^ 20.
Proof.
  intros Hsmall. unfold float64_of_int64 at 1.
  destruct (Z.ltb_spec (Z.abs bytes) (2 ^ 53)); [|lia]. reflexivity.
Qed.

(** C1 (the code departs from the claim).  On a manager that passes every
    earlier check, has an off-heap minimum of 600 MB and a memory limit of
    1Gi = 1024 MB, the rule of the specification accepts and
    [validateJobManager] returns the error "MemoryOffHeapMin is not
    specified"; on the same manager without a minimum the rule gives that
    error and [validateJobManager] panics on the nil pointer. *)
Theorem validateJobManager_offHeapMin_inverted :
  managerValidBeforeOffHeapMin Sample.manager = true
  ∧ JobManagerSpec.MemoryOffHeapMin Sample.manager = Some 600
  ∧ memoryLimitMB Sample.manager = 1024
  ∧ offHeapMinRule Sample.manager = ok
  ∧ validateJobManager Sample.manager = Err ErrJobManagerOffHeapMinUnspecified
  ∧ offHeapMinRule Sample.managerNoMin = Err ErrJobManagerOffHeapMinUnspecified
  ∧ validateJobManager Sample.managerNoMin = Panic.
Proof. by vm_compute. Qed.

(** C2.  A manager that passes the replicas, access-scope, port and
    off-heap-ratio checks and has a nil [MemoryOffHeapMin] makes
    [validateJobManager] panic on the nil dereference, and [ValidateCreate]
    with it when identity and image pass; no cluster at all makes
    [ValidateCreate] return nil: it returns an error or panics. *)
Theorem validateJobManager_nil_offHeapMin_panics :
  (∀ jm,
     managerValidBeforeOffHeapMin jm = true →
     JobManagerSpec.MemoryOffHeapMin jm = None →
     validateJobManager jm = Panic)
  ∧ (∀ cluster,
       validateMeta (ObjectMeta cluster) = ok →
       validateImage (Image (Spec cluster)) = ok →
       managerValidBeforeOffHeapMin (JobManager (Spec cluster)) = true →
       JobManagerSpec.MemoryOffHeapMin (JobManager (Spec cluster)) = None →
       ValidateCreate cluster = Panic)
  ∧ (∀ cluster,
       (∃ e, ValidateCreate cluster = Err e) ∨ ValidateCreate cluster = Panic).
Proof.
  split_and!.
  - intros jm Hvalid Hmin.
    by rewrite validateJobManager_at_offHeapMin, Hmin.
  - intros cluster Hmeta Himage Hvalid Hmin. unfold ValidateCreate.
    rewrite Hmeta, Himage. simpl.
    by rewrite validateJobManager_at_offHeapMin, Hmin.
  - intros cluster. pose proof (ValidateCreate_never_ok cluster).
    destruct (ValidateCreate cluster) as [[]|e|]; [done|left|right]; eauto.
Qed.

Lemma validateJobManager_nil_offHeapMin_panics_witness :
  validateJobManager Sample.managerNoMin = Panic
  ∧ ValidateCreate
      (FlinkCluster.mk Sample.meta
         (FlinkClusterSpec.mk Sample.image Sample.managerNoMin Sample.worker
            None))
    = Panic.
Proof.
  destruct validateJobManager_nil_offHeapMin_panics as (Hjm & Hcreate & _).
  split.
  - apply Hjm; reflexivity.
  - apply Hcreate; reflexivity.
Defined.

(** C7.  The shared port check returns an error for a nil port and for a
    port of 1024 or less, and nil for a port above 1024.  A port failing
    it in one of the four manager fields makes [validateJobManager] return
    an error, in one of the three worker fields [validateTaskManager], and
    in any of the seven [ValidateCreate] does not return nil. *)
Theorem validatePort_rule :
  (∀ port name component,
     port = None ∨ (∃ p, port = Some p ∧ p ≤ 1024) →
     ∃ e, validatePort port name component = Err e)
  ∧ (∀ p name component,
       1024 < p → validatePort (Some p) name component = ok)
  ∧ (∀ cluster port,
       port ∈ sevenPorts cluster →
       port = None ∨ (∃ p, port = Some p ∧ p ≤ 1024) →
       ValidateCreate cluster ≠ ok
       ∧ (port ∈ managerPorts (JobManager (Spec cluster)) →
          (∃ e, validateJobManager (JobManager (Spec cluster)) = Err e)
          ∧ ∃ e, ValidateCreate cluster = Err e)
       ∧ (port ∈ workerPorts (TaskManager (Spec cluster)) →
          ∃ e, validateTaskManager (TaskManager (Spec cluster)) = Err e)).
Proof.
  split_and!.
  - intros port name component Hport%portValid_false.
    rewrite validatePort_invalid by done. eauto.
  - intros p name component Hp. apply validatePort_valid.
    by apply Z.ltb_lt.
  - intros cluster port _ Hport%portValid_false. split_and!.
    + apply ValidateCreate_never_ok.
    + intros Hin.
      destruct (validateJobManager_invalid_port _ _ Hin Hport) as [e He].
      split; [by exists e|]. unfold ValidateCreate. rewrite He.
      destruct (validateMeta_returns (ObjectMeta cluster)) as [->|[e1 ->]];
        [simpl|by eauto].
      destruct (validateImage_returns (Image (Spec cluster)))
        as [->|[e2 ->]]; simpl; by eauto.
    + intros Hin. by eapply validateTaskManager_invalid_port.
Qed.

Lemma validatePort_rule_witness :
  (∃ e, validatePort (Some 1024) "rpc" "jobmanager" = Err e)
  ∧ validatePort (Some 1025) "rpc" "jobmanager" = ok
  ∧ ∃ e, ValidateCreate Sample.invalid = Err e.
Proof.
  destruct validatePort_rule as (Hfail & Hpass & Hcreate).
  split_and!.
  - apply Hfail. right. exists 1024. split; [reflexivity|lia].
  - apply Hpass. lia.
  - apply (Hcreate Sample.invalid (Some 80)).
    + apply list_elem_of_here.
    + right. exists 80. split; [reflexivity|lia].
    + apply list_elem_of_here.
Defined.

(** C8.  For a job whose other fields are valid, [validateJob] returns the
    error "cancelRequested cannot be set to true for a new job" when
    [CancelRequested] is present and true, and [ValidateCreate] of a
    cluster with that job does not return nil; when [CancelRequested] is
    nil or false, [validateJob] returns nil. *)
Theorem validateJob_cancelRequested job :
  jobValidApartFromCancel job = true →
  (JobSpec.CancelRequested job = Some true →
     validateJob (Some job) = Err ErrCancelRequestedForNewJob
     ∧ ∀ cluster, Job (Spec cluster) = Some job → ValidateCreate cluster ≠ ok)
  ∧ (JobSpec.CancelRequested job = None
     ∨ JobSpec.CancelRequested job = Some false →
     validateJob (Some job) = ok).
Proof.
  intros Hvalid. rewrite validateJob_at_cancelRequested by done. split.
  - intros ->. split; [done|]. intros cluster _.
    apply ValidateCreate_never_ok.
  - by intros [-> | ->].
Qed.

Lemma validateJob_cancelRequested_witness :
  validateJob (Some (Sample.job (Some true)))
    = Err ErrCancelRequestedForNewJob
  ∧ ValidateCreate (Sample.cluster (Some true)) ≠ ok
  ∧ validateJob (Some (Sample.job None)) = ok
  ∧ validateJob (Some (Sample.job (Some false))) = ok.
Proof.
  destruct (validateJob_cancelRequested (Sample.job (Some true)) eq_refl)
    as [Htrue _].
  destruct (Htrue eq_refl) as [Hjob Hcreate].
  destruct (validateJob_cancelRequested (Sample.job None) eq_refl)
    as [_ Hnil].
  destruct (validateJob_cancelRequested (Sample.job (Some false)) eq_refl)
    as [_ Hfalse].
  split_and!.
  - exact Hjob.
  - exact (Hcreate (Sample.cluster (Some true)) eq_refl).
  - apply Hnil. by left.
  - apply Hfalse. by right.
Defined.

(** C4.  When both specifications have a job and [CancelRequested] is true
    in the old one and false or nil in the new one, [checkCancelRequested],
    the first thing [ValidateUpdate] calls, returns the error "updating
    cancelRequested from true to false is not allowed" and
    [ValidateUpdate] returns it, whatever the other fields are.  Over the
    store the call ends with the store as it was: no clone is made and no
    comparison run. *)
Theorem ValidateUpdate_unCancel_rejected old new oldJob newJob :
  Job (Spec old) = Some oldJob → Job (Spec new) = Some newJob →
  JobSpec.CancelRequested oldJob = Some true →
  JobSpec.CancelRequested newJob = None
  ∨ JobSpec.CancelRequested newJob = Some false →
  checkCancelRequested old new = Err ErrCancelRequestedTrueToFalse
  ∧ ValidateUpdate old new = Err ErrCancelRequestedTrueToFalse
  ∧ ∀ σ oldPtr newPtr,
      Mem.snapshot σ oldPtr = Some old → Mem.snapshot σ newPtr = Some new →
      Mem.ValidateUpdate oldPtr newPtr σ
      = (σ, Err ErrCancelRequestedTrueToFalse).
Proof.
  intros Hold Hnew Hwas Hnow.
  assert (unCancel old new) as Hun by by exists oldJob, newJob.
  split_and!.
  - by apply checkCancelRequested_unCancel.
  - unfold ValidateUpdate. by rewrite checkCancelRequested_unCancel.
  - intros σ oldPtr newPtr Hσold Hσnew.
    by eapply ValidateUpdate_rejected_unCancel_store.
Qed.

Lemma ValidateUpdate_unCancel_rejected_witness :
  ValidateUpdate (Sample.cluster (Some true)) (Sample.cluster (Some false))
  = Err ErrCancelRequestedTrueToFalse
  ∧ Mem.ValidateUpdate (Some 3%positive) (Some 1%positive) Sample.store
    = (Sample.store, Err ErrCancelRequestedTrueToFalse).
Proof.
  split.
  - apply (ValidateUpdate_unCancel_rejected
             (Sample.cluster (Some true)) (Sample.cluster (Some false))
             (Sample.job (Some true)) (Sample.job (Some false)));
      [reflexivity..|by right].
  - apply (ValidateUpdate_unCancel_rejected
             (Sample.cluster (Some true)) (Sample.cluster None)
             (Sample.job (Some true)) (Sample.job None));
      [reflexivity..|by left|by vm_compute|by vm_compute].
Defined.

(** C5.  When both specifications have a job, [CancelRequested] goes from
    nil or false to true, and no other field of the specification differs
    (which is what the comparison of the overwritten clone with [new]
    tests), [checkCancelRequested] returns true and [ValidateUpdate]
    returns nil at once. *)
Theorem ValidateUpdate_cancel_accepted old new oldJob newJob :
  Job (Spec old) = Some oldJob → Job (Spec new) = Some newJob →
  JobSpec.CancelRequested oldJob = None
  ∨ JobSpec.CancelRequested oldJob = Some false →
  JobSpec.CancelRequested newJob = Some true →
  sameSpecApartFromCancel (Spec old) (Spec new) oldJob newJob →
  Spec new
    = setJob (Some (JobSpec.setCancelRequested
                      (JobSpec.CancelRequested newJob) oldJob)) (Spec old)
  ∧ checkCancelRequested old new = Val true
  ∧ ValidateUpdate old new = ok.
Proof.
  intros Hold Hnew Hwas Hnow Hsame.
  assert (permittedCancel old new) as Hperm.
  { exists oldJob, newJob. split_and!; [done|done|by split|done]. }
  split_and!.
  - by apply overwritten_clone_equal.
  - by apply checkCancelRequested_permitted.
  - unfold ValidateUpdate. by rewrite checkCancelRequested_permitted.
Qed.

Lemma ValidateUpdate_cancel_accepted_witness :
  ValidateUpdate (Sample.cluster None) (Sample.cluster (Some true)) = ok.
Proof.
  apply (ValidateUpdate_cancel_accepted
           (Sample.cluster None) (Sample.cluster (Some true))
           (Sample.job None) (Sample.job (Some true)));
    [reflexivity|reflexivity|by left|reflexivity|by repeat split].
Defined.



(** C3, as stated, fails: two clusters that differ in their name and in
    nothing else are neither the permitted nor the rejected transition, and
    [ValidateUpdate] returns nil for them. *)
Lemma ValidateUpdate_renamed_accepted :
  ObjectMeta.Name (ObjectMeta (Sample.cluster None))
    ≠ ObjectMeta.Name (ObjectMeta Sample.renamed)
  ∧ ¬ permittedCancel (Sample.cluster None) Sample.renamed
  ∧ ¬ unCancel (Sample.cluster None) Sample.renamed
  ∧ ValidateUpdate (Sample.cluster None) Sample.renamed = ok.
Proof.
  split_and!.
  - discriminate.
  - intros (oldJob & newJob & _ & [= <-] & [_ Hnow] & _). discriminate Hnow.
  - intros (oldJob & newJob & [= <-] & _ & Hwas & _). discriminate Hwas.
  - reflexivity.
Qed.

(** C3, amended.  For an update that is neither the permitted cancel
    transition nor the rejected un-cancel transition, [ValidateUpdate]
    returns "the cluster properties are not updatable" whenever the image,
    the manager, the worker or the job differs between old and new.  The
    identity is not part of what is compared: the result is the same under
    any two [ObjectMeta]s. *)
Theorem ValidateUpdate_spec_immutable old new :
  ¬ permittedCancel old new → ¬ unCancel old new →
  (Image (Spec old) ≠ Image (Spec new)
   ∨ JobManager (Spec old) ≠ JobManager (Spec new)
   ∨ TaskManager (Spec old) ≠ TaskManager (Spec new)
   ∨ Job (Spec old) ≠ Job (Spec new) →
   ValidateUpdate old new = Err ErrNotUpdatable)
  ∧ ∀ oldMeta newMeta,
      ValidateUpdate (FlinkCluster.mk oldMeta (Spec old))
        (FlinkCluster.mk newMeta (Spec new))
      = ValidateUpdate old new.
Proof.
  intros Hperm Hun. split.
  - intros Hdiff. unfold ValidateUpdate.
    rewrite checkCancelRequested_otherwise by done. simpl.
    assert (Spec new ≠ Spec old) as Hne%DeepEqual_false
      by (intros Heq; rewrite Heq in Hdiff; tauto).
    by rewrite Hne.
  - intros oldMeta newMeta. by destruct old, new.
Qed.

Lemma ValidateUpdate_spec_immutable_witness :
  ValidateUpdate (Sample.cluster None) Sample.invalid = Err ErrNotUpdatable
  ∧ ValidateUpdate Sample.renamed (Sample.cluster None)
    = ValidateUpdate (Sample.cluster None) (Sample.cluster None).
Proof.
  assert (¬ permittedCancel (Sample.cluster None) Sample.invalid) as Hperm.
  { intros (oldJob & newJob & _ & Hnew & _). discriminate Hnew. }
  assert (¬ unCancel (Sample.cluster None) Sample.invalid) as Hun.
  { intros (oldJob & newJob & _ & Hnew & _). discriminate Hnew. }
  split.
  - apply (proj1 (ValidateUpdate_spec_immutable _ _ Hperm Hun)).
    left. discriminate.
  - assert (¬ permittedCancel (Sample.cluster None) (Sample.cluster None))
      as Hperm'.
    { intros (oldJob & newJob & _ & [= <-] & [_ Hnow] & _).
      discriminate Hnow. }
    assert (¬ unCancel (Sample.cluster None) (Sample.cluster None)) as Hun'.
    { intros (oldJob & newJob & [= <-] & _ & Hwas & _). discriminate Hwas. }
    apply (proj2 (ValidateUpdate_spec_immutable _ _ Hperm' Hun')).
Defined.

(** C10.  [ValidateUpdate] returns nil for every pair of clusters whose
    [Spec]s are equal, and validates no field: the sample cluster with an
    empty image name, two managers and reserved ports, which
    [validateImage], [validateJobManager], [validateTaskManager] and
    [ValidateCreate] each reject, is accepted as an update of itself. *)
Theorem ValidateUpdate_no_field_validation :
  (∀ old new, Spec old = Spec new → ¬ unCancel old new)
  ∧ (∀ old new, Spec old = Spec new → ValidateUpdate old new = ok)
  ∧ validateImage (Image (Spec Sample.invalid)) = Err ErrImageNameUnspecified
  ∧ validateJobManager (JobManager (Spec Sample.invalid))
    = Err ErrJobManagerReplicas
  ∧ validateTaskManager (TaskManager (Spec Sample.invalid))
    = Err (ErrInvalidPort "taskmanager" "rpc" 22)
  ∧ ValidateCreate Sample.invalid = Err ErrImageNameUnspecified
  ∧ ValidateUpdate Sample.invalid Sample.invalid = ok.
Proof.
  assert (∀ old new : Cluster, Spec old = Spec new → ¬ unCancel old new)
    as Hun.
  { intros old new Heq (oldJob & newJob & Hold & Hnew & Hwas & Hnow).
    rewrite Heq, Hnew in Hold. injection Hold as <-.
    destruct Hnow; congruence. }
  split_and!; [done| |reflexivity..].
  intros old new Heq. unfold ValidateUpdate.
  rewrite checkCancelRequested_otherwise; [|by apply Hun|].
  - simpl. symmetry in Heq. apply DeepEqual_true in Heq. by rewrite Heq.
  - intros (oldJob & newJob & Hold & Hnew & [Hwas Hnow] & _).
    rewrite Heq, Hnew in Hold. injection Hold as <-.
    destruct Hwas; congruence.
Qed.

Lemma ValidateUpdate_no_field_validation_witness :
  ValidateUpdate Sample.renamed (Sample.cluster None) = ok.
Proof.
  destruct ValidateUpdate_no_field_validation as (_ & Hequal & _).
  apply Hequal. reflexivity.
Defined.

(** C9.  [ValidateUpdate] leaves its inputs as they were: every cell the
    store held before the call holds the same value after it, so the
    resources behind [old] and [new], and behind any other pointer, are
    the same before and after.  The one cell the call overwrites belongs
    to the clone it allocated. *)
Theorem ValidateUpdate_inputs_unchanged (σ : Mem.store) (old new : Mem.ptr) :
  σ ⊆ (Mem.ValidateUpdate old new σ).1
  ∧ ∀ p cluster,
      Mem.snapshot σ p = Some cluster →
      Mem.snapshot (Mem.ValidateUpdate old new σ).1 p = Some cluster.
Proof.
  pose proof (ValidateUpdate_extends σ old new) as Hsub.
  split; [done|]. intros p cluster. by apply snapshot_weaken.
Qed.

(** On the sample store the update from address 1 to address 3 is the
    permitted transition: the call returns nil, and the cluster behind
    [old] reads the same after it. *)
Lemma ValidateUpdate_inputs_unchanged_witness :
  Mem.snapshot
    (Mem.ValidateUpdate (Some 1%positive) (Some 3%positive) Sample.store).1
    (Some 1%positive)
  = Some (Sample.cluster None).
Proof.
  apply (proj2 (ValidateUpdate_inputs_unchanged
                  Sample.store (Some 1%positive) (Some 3%positive))).
  by vm_compute.
Defined.

(** That call does take the clone-and-compare path: it returns nil and the
    store has grown by the two cells of the clone. *)
Example ValidateUpdate_sample_store_clones :
  (Mem.ValidateUpdate (Some 1%positive) (Some 3%positive) Sample.store).2 = ok
  ∧ dom (Mem.ValidateUpdate (Some 1%positive) (Some 3%positive)
           Sample.store).1
    = {[ 1; 2; 3; 4; 5; 6 ]}%positive.
Proof. by vm_compute. Qed.

(** The store does show a write through an input: the same assignment made
    on the job cell of [old] itself changes the resource behind [old]. *)
Example storeJob_through_input_visible :
  Mem.snapshot
    (Mem.storeJob (Some 2%positive) (Sample.job (Some true)) Sample.store).1
    (Some 1%positive)
  = Some (Sample.cluster (Some true)).
Proof. by vm_compute. Qed.

End Claims.

(** ** Further properties of the validator *)

Section Coverage.

Import FlinkCluster FlinkClusterSpec.

#[local] Arguments validateJobManager : simpl never.

(** *** The create path, check by check *)

Lemma validateMeta_result meta :
  validateMeta meta
  = if bool_decide (ObjectMeta.Name meta = "") then Err ErrNameUnspecified
    else if bool_decide (ObjectMeta.Namespace meta = "")
    then Err ErrNamespaceUnspecified
    else ok.
Proof. unfold validateMeta. by rewrite !len_zero. Qed.

Lemma string_switch (x : string) (values : list string) :
  existsb (String.eqb x) values = bool_decide (x ∈ values).
Proof.
  induction values as [|v values IH]; simpl.
  - done.
  - rewrite IH. destruct (String.eqb_spec x v) as [->|Hne]; simpl.
    + symmetry. apply bool_decide_eq_true_2, list_elem_of_here.
    + apply bool_decide_ext. rewrite elem_of_cons. tauto.
Qed.

Lemma validateImage_result imageSpec :
  validateImage imageSpec
  = if bool_decide (ImageSpec.Name imageSpec = "")
    then Err ErrImageNameUnspecified
    else if bool_decide (ImageSpec.PullPolicy imageSpec ∈ pullPolicies)
    then ok
    else Err (ErrInvalidPullPolicy (ImageSpec.PullPolicy imageSpec)).
Proof.
  unfold validateImage. rewrite len_zero. case_bool_decide; [done|].
  rewrite <- string_switch. unfold pullPolicies. simpl.
  by repeat (destruct (String.eqb _ _)).
Qed.

(** X1.  The identity is checked first: a cluster with an empty name gets
    "cluster name is unspecified" and one with a name and an empty namespace
    "cluster namesapce is unspecified", whatever the rest of the resource
    holds; the identity check passes exactly when both are non-empty. *)
Theorem ValidateCreate_identity_first (cluster : Cluster) :
  (ObjectMeta.Name (ObjectMeta cluster) = "" →
   ValidateCreate cluster = Err ErrNameUnspecified)
  ∧ (ObjectMeta.Name (ObjectMeta cluster) ≠ "" →
     ObjectMeta.Namespace (ObjectMeta cluster) = "" →
     ValidateCreate cluster = Err ErrNamespaceUnspecified)
  ∧ (validateMeta (ObjectMeta cluster) = ok
     ↔ ObjectMeta.Name (ObjectMeta cluster) ≠ ""
       ∧ ObjectMeta.Namespace (ObjectMeta cluster) ≠ "").
Proof.
  unfold ValidateCreate. rewrite validateMeta_result. split_and!.
  - intros ->. done.
  - intros Hname ->. by rewrite bool_decide_eq_false_2.
  - repeat case_bool_decide; split; try done; tauto.
Qed.

Lemma ValidateCreate_identity_first_witness :
  ValidateCreate
    (FlinkCluster.mk (ObjectMeta.mk "" "") (Spec Sample.invalid))
  = Err ErrNameUnspecified
  ∧ ValidateCreate
      (FlinkCluster.mk (ObjectMeta.mk "wordcount" "") (Spec Sample.invalid))
    = Err ErrNamespaceUnspecified.
Proof.
  split.
  - apply (proj1 (ValidateCreate_identity_first
                    (FlinkCluster.mk (ObjectMeta.mk "" "") (Spec Sample.invalid)))).
    reflexivity.
  - apply (proj1 (proj2 (ValidateCreate_identity_first
                           (FlinkCluster.mk (ObjectMeta.mk "wordcount" "")
                              (Spec Sample.invalid)))));
      [discriminate|reflexivity].
Defined.

(** X2.  The image check passes exactly when the image name is non-empty
    and the pull policy is one of Always, IfNotPresent and Never.  An empty
    name is reported before the policy is looked at; an undeclared policy,
    the empty one included, is reported with its value. *)
Theorem validateImage_accepts_iff (imageSpec : ImageSpec.t) :
  (validateImage imageSpec = ok
   ↔ ImageSpec.Name imageSpec ≠ ""
     ∧ ImageSpec.PullPolicy imageSpec ∈ pullPolicies)
  ∧ (ImageSpec.Name imageSpec = "" →
     validateImage imageSpec = Err ErrImageNameUnspecified)
  ∧ (ImageSpec.Name imageSpec ≠ "" →
     ImageSpec.PullPolicy imageSpec ∉ pullPolicies →
     validateImage imageSpec
     = Err (ErrInvalidPullPolicy (ImageSpec.PullPolicy imageSpec))).
Proof.
  rewrite validateImage_result. split_and!.
  - repeat case_bool_decide; split; try done; tauto.
  - intros ->. done.
  - intros Hname Hpolicy. by rewrite !bool_decide_eq_false_2.
Qed.

Lemma validateImage_accepts_iff_witness :
  validateImage (ImageSpec.mk "" "always") = Err ErrImageNameUnspecified
  ∧ validateImage (ImageSpec.mk "flink:1.8.1" "always")
    = Err (ErrInvalidPullPolicy "always")
  ∧ validateImage (ImageSpec.mk "flink:1.8.1" "")
    = Err (ErrInvalidPullPolicy "").
Proof.
  split_and!.
  - apply (proj1 (proj2 (validateImage_accepts_iff (ImageSpec.mk "" "always")))).
    reflexivity.
  - apply (proj2 (proj2 (validateImage_accepts_iff
                           (ImageSpec.mk "flink:1.8.1" "always"))));
      [discriminate|].
    unfold pullPolicies. rewrite !elem_of_cons, elem_of_nil.
    intros [?|[?|[?|[]]]]; discriminate.
  - apply (proj2 (proj2 (validateImage_accepts_iff
                           (ImageSpec.mk "flink:1.8.1" ""))));
      [discriminate|].
    unfold pullPolicies. rewrite !elem_of_cons, elem_of_nil.
    intros [?|[?|[?|[]]]]; discriminate.
Defined.

Lemma validatePort_result port name component :
  validatePort port name component
  = if portValid port then ok else Err (portError component name port).
Proof.
  destruct (portValid port) eqn:Hport.
  - by apply validatePort_valid.
  - by apply validatePort_invalid.
Qed.

(** The manager check, rule by rule in the order of the code. *)
Lemma validateJobManager_result jm :
  validateJobManager jm
  = if bool_decide (JobManagerSpec.Replicas jm = Some 1) then
      if bool_decide (JobManagerSpec.AccessScope jm ∈ accessScopes) then
        match firstInvalidPort (managerPortFields jm) with
        | Some (name, port) => Err (portError "jobmanager" name port)
        | None =>
            match JobManagerSpec.MemoryOffHeapRatio jm with
            | None => Err ErrJobManagerOffHeapRatio
            | Some ratio =>
                if (ratio <? 0) || (100 <? ratio)
                then Err ErrJobManagerOffHeapRatio
                else match JobManagerSpec.MemoryOffHeapMin jm with
                     | Some _ => Err ErrJobManagerOffHeapMinUnspecified
                     | None => Panic
                     end
            end
        end
      else Err (ErrJobManagerAccessScope (JobManagerSpec.AccessScope jm))
    else Err ErrJobManagerReplicas.
Proof.
  unfold validateJobManager.
  destruct (JobManagerSpec.Replicas jm) as [replicas|];
    [|by rewrite bool_decide_eq_false_2].
  destruct (Z.eqb_spec replicas 1) as [->|Hne];
    [|rewrite bool_decide_eq_false_2; [done|congruence]].
  rewrite bool_decide_eq_true_2 by done. simpl negb. cbv iota.
  rewrite accessScope_switch. fold accessScopes.
  destruct (bool_decide (_ ∈ accessScopes)); [simpl|done].
  unfold firstInvalidPort, managerPortFields. simpl.
  rewrite !validatePort_result.
  destruct (portValid (JobManagerPorts.RPC _)); [simpl|done].
  destruct (portValid (JobManagerPorts.Blob _)); [simpl|done].
  destruct (portValid (JobManagerPorts.Query _)); [simpl|done].
  destruct (portValid (JobManagerPorts.UI _)); [simpl|done].
  destruct (JobManagerSpec.MemoryOffHeapRatio jm) as [ratio|]; [|done].
  rewrite Z.gtb_ltb, orb_comm.
  destruct ((ratio <? 0) || (100 <? ratio)); [done|].
  by destruct (JobManagerSpec.MemoryOffHeapMin jm).
Qed.

(** The worker check, rule by rule in the order of the code. *)
Lemma validateTaskManager_result tm :
  validateTaskManager tm
  = if TaskManagerSpec.Replicas tm <? 1 then Err ErrTaskManagerReplicas
    else match firstInvalidPort (workerPortFields tm) with
         | Some (name, port) => Err (portError "taskmanager" name port)
         | None => ok
         end.
Proof.
  unfold validateTaskManager.
  destruct (_ <? 1); [done|].
  unfold firstInvalidPort, workerPortFields. simpl.
  rewrite !validatePort_result.
  destruct (portValid (TaskManagerPorts.RPC _)); [simpl|done].
  destruct (portValid (TaskManagerPorts.Data _)); [simpl|done].
  by destruct (portValid (TaskManagerPorts.Query _)).
Qed.

Lemma validateCleanupAction_result property value :
  validateCleanupAction property value
  = if bool_decide (value ∈ cleanupActions) then ok
    else Err (ErrInvalidCleanupAction property value).
Proof.
  unfold validateCleanupAction. rewrite <- string_switch.
  unfold cleanupActions. simpl. by repeat (destruct (String.eqb _ _)).
Qed.

(** The job check, rule by rule in the order of the code. *)
Lemma validateJob_result job :
  validateJob (Some job)
  = if bool_decide (JobSpec.JarFile job = "") then Err ErrJarFileUnspecified
    else match JobSpec.Parallelism job with
    | None => Err ErrParallelismUnspecified
    | Some parallelism =>
    if parallelism <? 1 then Err ErrParallelismTooSmall
    else match JobSpec.RestartPolicy job with
    | None => Err ErrRestartPolicyUnspecified
    | Some restartPolicy =>
    if bool_decide (restartPolicy ∈ restartPolicies) then
      match JobSpec.CleanupPolicy job with
      | None => Err ErrCleanupPolicyUnspecified
      | Some cleanupPolicy =>
      let succeeds := CleanupPolicy.AfterJobSucceeds cleanupPolicy in
      let fails := CleanupPolicy.AfterJobFails cleanupPolicy in
      if bool_decide (succeeds ∈ cleanupActions) then
        if bool_decide (fails ∈ cleanupActions) then
          if isTrue (JobSpec.CancelRequested job)
          then Err ErrCancelRequestedForNewJob else ok
        else Err (ErrInvalidCleanupAction "cleanupPolicy.afterJobFails" fails)
      else Err (ErrInvalidCleanupAction "cleanupPolicy.afterJobSucceeds"
                  succeeds)
      end
    else Err (ErrInvalidRestartPolicy restartPolicy)
    end end.
Proof.
  unfold validateJob. rewrite len_zero.
  destruct (bool_decide (JobSpec.JarFile job = "")); [done|].
  destruct (JobSpec.Parallelism job) as [parallelism|]; [|done].
  destruct (parallelism <? 1); [done|].
  destruct (JobSpec.RestartPolicy job) as [restartPolicy|]; [|done].
  rewrite <- (string_switch restartPolicy restartPolicies).
  unfold restartPolicies. simpl existsb. rewrite orb_false_r.
  destruct (_ || _); [simpl|done].
  destruct (JobSpec.CleanupPolicy job) as [cleanupPolicy|]; [|done].
  rewrite !validateCleanupAction_result. cbv zeta.
  destruct (bool_decide (CleanupPolicy.AfterJobSucceeds _ ∈ _)); [simpl|done].
  by destruct (bool_decide (CleanupPolicy.AfterJobFails _ ∈ _)).
Qed.

Lemma firstInvalidPort_at (before after : list (string * option Z)) name port :
  Forall (λ field, portValid field.2 = true) before →
  portValid port = false →
  firstInvalidPort (before ++ (name, port) :: after)%list = Some (name, port).
Proof.
  unfold firstInvalidPort. intros Hbefore Hport.
  induction Hbefore as [|field before Hfield _ IH]; simpl.
  - by rewrite Hport.
  - by rewrite Hfield.
Qed.

Lemma firstInvalidPort_None fields :
  firstInvalidPort fields = None
  ↔ Forall (λ port, portValid port = true) fields.*2.
Proof.
  unfold firstInvalidPort. induction fields as [|field fields IH]; simpl.
  - split; [constructor|done].
  - rewrite Forall_cons. destruct (portValid field.2); simpl.
    + rewrite IH. tauto.
    + split; [done|]. by intros [[=] _].
Qed.

Lemma managerPortFields_ports jm : (managerPortFields jm).*2 = managerPorts jm.
Proof. reflexivity. Qed.

Lemma workerPortFields_ports tm : (workerPortFields tm).*2 = workerPorts tm.
Proof. reflexivity. Qed.

(** X3.  The manager check returns "invalid JobManager replicas, it must
    be 1" exactly when the replica count is nil or other than 1, whatever
    the other fields hold; [ValidateCreate] returns it for every such
    cluster whose identity and image pass. *)
Theorem validateJobManager_replicas_error_iff (cluster : Cluster) :
  let jm := JobManager (Spec cluster) in
  (validateJobManager jm = Err ErrJobManagerReplicas
   ↔ JobManagerSpec.Replicas jm ≠ Some 1)
  ∧ (validateMeta (ObjectMeta cluster) = ok →
     validateImage (Image (Spec cluster)) = ok →
     JobManagerSpec.Replicas jm ≠ Some 1 →
     ValidateCreate cluster = Err ErrJobManagerReplicas).
Proof.
  cbv zeta.
  assert (validateJobManager (JobManager (Spec cluster))
            = Err ErrJobManagerReplicas
          ↔ JobManagerSpec.Replicas (JobManager (Spec cluster)) ≠ Some 1)
    as Hiff.
  { rewrite validateJobManager_result. case_bool_decide as Hreplicas.
    - split; [|done]. unfold portError. by repeat case_match.
    - done. }
  split; [done|]. intros Hmeta Himage Hreplicas%Hiff.
  unfold ValidateCreate. by rewrite Hmeta, Himage, Hreplicas.
Qed.

Lemma validateJobManager_replicas_error_iff_witness :
  ValidateCreate
    (FlinkCluster.mk Sample.meta
       (FlinkClusterSpec.mk Sample.image
          (JobManagerSpec.mk None "" (JobManagerPorts.mk None None None None)
             (ResourceRequirements.mk None None) None None)
          Sample.worker None))
  = Err ErrJobManagerReplicas.
Proof.
  apply (proj2 (validateJobManager_replicas_error_iff
                  (FlinkCluster.mk Sample.meta
                     (FlinkClusterSpec.mk Sample.image
                        (JobManagerSpec.mk None ""
                           (JobManagerPorts.mk None None None None)
                           (ResourceRequirements.mk None None) None None)
                        Sample.worker None))));
    [reflexivity|reflexivity|discriminate].
Defined.

(** X4.  With one replica, the manager check returns "invalid JobManager
    access scope" with the scope it found exactly when the scope is not one
    of the three declared values, whatever the fields checked after it
    hold. *)
Theorem validateJobManager_accessScope_error_iff (jm : JobManagerSpec.t) :
  JobManagerSpec.Replicas jm = Some 1 →
  validateJobManager jm
    = Err (ErrJobManagerAccessScope (JobManagerSpec.AccessScope jm))
  ↔ JobManagerSpec.AccessScope jm ∉ accessScopes.
Proof.
  intros Hreplicas. rewrite validateJobManager_result, Hreplicas.
  rewrite bool_decide_eq_true_2 by done. case_bool_decide as Hscope.
  - split; [|done]. unfold portError. by repeat case_match.
  - done.
Qed.

Lemma validateJobManager_accessScope_error_iff_witness :
  validateJobManager
    (JobManagerSpec.mk (Some 1) "cluster" Sample.managerPorts Sample.resources
       (Some 25) (Some 600))
  = Err (ErrJobManagerAccessScope "cluster").
Proof.
  apply (validateJobManager_accessScope_error_iff
           (JobManagerSpec.mk (Some 1) "cluster" Sample.managerPorts
              Sample.resources (Some 25) (Some 600)) eq_refl).
  unfold accessScopes. rewrite !elem_of_cons, elem_of_nil.
  intros [?|[?|[?|[]]]]; discriminate.
Defined.

(** X5.  With one replica, a declared access scope and four valid ports,
    the manager check returns "invalid JobManager memoryOffHeapRatio"
    exactly when the ratio is nil, below 0 or above 100: the bounds 0 and
    100 themselves get past it. *)
Theorem validateJobManager_offHeapRatio_error_iff (jm : JobManagerSpec.t) :
  JobManagerSpec.Replicas jm = Some 1 →
  JobManagerSpec.AccessScope jm ∈ accessScopes →
  Forall (λ port, portValid port = true) (managerPorts jm) →
  validateJobManager jm = Err ErrJobManagerOffHeapRatio
  ↔ JobManagerSpec.MemoryOffHeapRatio jm = None
    ∨ ∃ ratio, JobManagerSpec.MemoryOffHeapRatio jm = Some ratio
               ∧ (ratio < 0 ∨ 100 < ratio).
Proof.
  intros Hreplicas Hscope Hports.
  rewrite validateJobManager_result, Hreplicas.
  rewrite !bool_decide_eq_true_2 by done.
  rewrite <- managerPortFields_ports in Hports.
  apply firstInvalidPort_None in Hports as ->.
  destruct (JobManagerSpec.MemoryOffHeapRatio jm) as [ratio|];
    [|split; [by left|done]].
  destruct (Z.ltb_spec ratio 0), (Z.ltb_spec 100 ratio); simpl;
    try (split; [intros _; right; exists ratio; split; [done|lia] | done]).
  split.
  - by destruct (JobManagerSpec.MemoryOffHeapMin jm).
  - intros [[=]|(r & [= <-] & ?)]. lia.
Qed.

Lemma validateJobManager_offHeapRatio_error_iff_witness :
  validateJobManager
    (JobManagerSpec.mk (Some 1) AccessScope.VPC Sample.managerPorts
       Sample.resources (Some 101) (Some 600))
  = Err ErrJobManagerOffHeapRatio
  ∧ validateJobManager
      (JobManagerSpec.mk (Some 1) AccessScope.VPC Sample.managerPorts
         Sample.resources (Some 100) (Some 600))
    ≠ Err ErrJobManagerOffHeapRatio.
Proof.
  assert (AccessScope.VPC ∈ accessScopes) as Hscope
    by (apply list_elem_of_further, list_elem_of_here).
  assert (Forall (λ port, portValid port = true)
            [Some 6123; Some 6124; Some 6125; Some 8081]) as Hports
    by (repeat constructor).
  split.
  - apply (validateJobManager_offHeapRatio_error_iff
             (JobManagerSpec.mk (Some 1) AccessScope.VPC Sample.managerPorts
                Sample.resources (Some 101) (Some 600))
             eq_refl Hscope Hports).
    right. exists 101. split; [reflexivity|lia].
  - intros Herr.
    apply (validateJobManager_offHeapRatio_error_iff
             (JobManagerSpec.mk (Some 1) AccessScope.VPC Sample.managerPorts
                Sample.resources (Some 100) (Some 600))
             eq_refl Hscope Hports) in Herr.
    destruct Herr as [[=]|(r & [= <-] & ?)]. lia.
Defined.

(** X6.  With one replica and a declared access scope, the manager check
    reports the first port, in the order rpc, blob, query, ui, that is nil
    or at most 1024: the error names the component "jobmanager", that port
    and its value, and later ports are not looked at. *)
Theorem validateJobManager_first_invalid_port (jm : JobManagerSpec.t)
    (before after : list (string * option Z)) name port :
  JobManagerSpec.Replicas jm = Some 1 →
  JobManagerSpec.AccessScope jm ∈ accessScopes →
  managerPortFields jm = (before ++ (name, port) :: after)%list →
  Forall (λ field, portValid field.2 = true) before →
  portValid port = false →
  validateJobManager jm = Err (portError "jobmanager" name port).
Proof.
  intros Hreplicas Hscope Hfields Hbefore Hport.
  rewrite validateJobManager_result, Hreplicas, Hfields.
  rewrite !bool_decide_eq_true_2 by done.
  by rewrite firstInvalidPort_at.
Qed.

Lemma validateJobManager_first_invalid_port_witness :
  validateJobManager
    (JobManagerSpec.mk (Some 1) AccessScope.VPC
       (JobManagerPorts.mk (Some 6123) (Some 6124) (Some 1024) None)
       Sample.resources None None)
  = Err (ErrInvalidPort "jobmanager" "query" 1024).
Proof.
  apply (validateJobManager_first_invalid_port
           (JobManagerSpec.mk (Some 1) AccessScope.VPC
              (JobManagerPorts.mk (Some 6123) (Some 6124) (Some 1024) None)
              Sample.resources None None)
           [("rpc", Some 6123); ("blob", Some 6124)] [("ui", None)]
           "query" (Some 1024)).
  - reflexivity.
  - apply list_elem_of_further, list_elem_of_here.
  - reflexivity.
  - repeat constructor.
  - reflexivity.
Defined.

(** X7.  The worker check returns nil exactly when the replica count is at
    least 1 and the rpc, data and query ports are all present and above
    1024.  A replica count below 1 is reported before any port, and
    otherwise the first failing port in that order is reported under the
    component "taskmanager". *)
Theorem validateTaskManager_accepts_iff (tm : TaskManagerSpec.t) :
  (validateTaskManager tm = ok
   ↔ 1 ≤ TaskManagerSpec.Replicas tm
     ∧ Forall (λ port, portValid port = true) (workerPorts tm))
  ∧ (TaskManagerSpec.Replicas tm < 1 →
     validateTaskManager tm = Err ErrTaskManagerReplicas)
  ∧ (∀ (before after : list (string * option Z)) name port,
       1 ≤ TaskManagerSpec.Replicas tm →
       workerPortFields tm = (before ++ (name, port) :: after)%list →
       Forall (λ field, portValid field.2 = true) before →
       portValid port = false →
       validateTaskManager tm = Err (portError "taskmanager" name port)).
Proof.
  rewrite validateTaskManager_result. split_and!.
  - rewrite <- workerPortFields_ports, <- firstInvalidPort_None.
    destruct (Z.ltb_spec (TaskManagerSpec.Replicas tm) 1).
    + split; [done|lia].
    + destruct (firstInvalidPort _) as [[name port]|];
        [split; [done|by intros [_ [=]]]|done].
  - intros Hreplicas. by destruct (Z.ltb_spec (TaskManagerSpec.Replicas tm) 1); [|lia].
  - intros before after name port Hreplicas Hfields Hbefore Hport.
    destruct (Z.ltb_spec (TaskManagerSpec.Replicas tm) 1); [lia|].
    by rewrite Hfields, firstInvalidPort_at.
Qed.

Lemma validateTaskManager_accepts_iff_witness :
  validateTaskManager
    (TaskManagerSpec.mk 0 (TaskManagerPorts.mk None None None))
  = Err ErrTaskManagerReplicas
  ∧ validateTaskManager
      (TaskManagerSpec.mk 1 (TaskManagerPorts.mk (Some 6122) None (Some 80)))
    = Err (ErrPortUnspecified "taskmanager" "data").
Proof.
  split.
  - apply (proj1 (proj2 (validateTaskManager_accepts_iff
                           (TaskManagerSpec.mk 0
                              (TaskManagerPorts.mk None None None))))).
    simpl. lia.
  - apply (proj2 (proj2 (validateTaskManager_accepts_iff
                           (TaskManagerSpec.mk 1
                              (TaskManagerPorts.mk (Some 6122) None (Some 80)))))
             [("rpc", Some 6122)] [("query", Some 80)] "data" None).
    + simpl. lia.
    + reflexivity.
    + repeat constructor.
    + reflexivity.
Defined.

Lemma jobValidApartFromCancel_spec job :
  jobValidApartFromCancel job = true
  ↔ JobSpec.JarFile job ≠ ""
    ∧ (∃ parallelism,
         JobSpec.Parallelism job = Some parallelism ∧ 1 ≤ parallelism)
    ∧ (∃ restartPolicy,
         JobSpec.RestartPolicy job = Some restartPolicy
         ∧ restartPolicy ∈ restartPolicies)
    ∧ ∃ cleanupPolicy,
        JobSpec.CleanupPolicy job = Some cleanupPolicy
        ∧ CleanupPolicy.AfterJobSucceeds cleanupPolicy ∈ cleanupActions
        ∧ CleanupPolicy.AfterJobFails cleanupPolicy ∈ cleanupActions.
Proof.
  unfold jobValidApartFromCancel.
  rewrite !andb_true_iff, negb_true_iff, bool_decide_eq_false.
  destruct (JobSpec.Parallelism job) as [parallelism|];
    [rewrite Z.leb_le|]; (destruct (JobSpec.RestartPolicy job) as [policy|];
    [rewrite bool_decide_eq_true|]);
    (destruct (JobSpec.CleanupPolicy job) as [cleanup|];
    [rewrite andb_true_iff, !bool_decide_eq_true|]);
    split;
    try (intros [[[? ?] ?] ?]; by eauto 10);
    try (intros (? & (? & [=] & ?) & (? & [=] & ?) & (? & [=] & ? & ?));
         by subst);
    try (intros (? & (? & ? & ?) & (? & ? & ?) & (? & ? & ? & ?)); done).
Qed.

(** X8.  The job check returns nil exactly when there is no job, or the
    job has a jar file, a parallelism of at least 1, a restart policy of
    Never or OnFailure, a cleanup policy with two declared actions, and a
    [CancelRequested] that is not true. *)
Theorem validateJob_accepts_iff (jobSpec : option JobSpec.t) :
  validateJob jobSpec = ok
  ↔ jobSpec = None
    ∨ ∃ job, jobSpec = Some job
        ∧ jobValidApartFromCancel job = true
        ∧ JobSpec.CancelRequested job ≠ Some true.
Proof.
  destruct jobSpec as [job|]; [|split; [by left|done]].
  split.
  - intros Hok. right. exists job. split; [done|].
    rewrite validateJob_result in Hok. cbv zeta in Hok.
    rewrite jobValidApartFromCancel_spec.
    repeat case_match; try done.
    repeat case_bool_decide; try done.
    split_and!; eauto 10.
    + match goal with H : (_ <? 1) = false |- _ =>
        apply Z.ltb_ge in H end.
      eauto.
    + intros Hcancel. by rewrite Hcancel in *.
  - intros [[=]|(? & [= <-] & Hvalid & Hcancel)].
    rewrite validateJob_at_cancelRequested by done.
    by destruct (JobSpec.CancelRequested job) as [[]|].
Qed.

(** X9.  The job check reports the first missing or invalid field in the
    order jar file, parallelism, restart policy: an empty jar file whatever
    the other fields are; with a jar file, a nil parallelism and then a
    parallelism below 1; with those in order, a nil restart policy and then
    a restart policy other than Never and OnFailure, reported with its
    value (so Always is rejected for a job). *)
Theorem validateJob_required_fields (job : JobSpec.t) :
  (JobSpec.JarFile job = "" →
   validateJob (Some job) = Err ErrJarFileUnspecified)
  ∧ (JobSpec.JarFile job ≠ "" → JobSpec.Parallelism job = None →
     validateJob (Some job) = Err ErrParallelismUnspecified)
  ∧ (∀ parallelism,
       JobSpec.JarFile job ≠ "" →
       JobSpec.Parallelism job = Some parallelism → parallelism < 1 →
       validateJob (Some job) = Err ErrParallelismTooSmall)
  ∧ (∀ parallelism,
       JobSpec.JarFile job ≠ "" →
       JobSpec.Parallelism job = Some parallelism → 1 ≤ parallelism →
       JobSpec.RestartPolicy job = None →
       validateJob (Some job) = Err ErrRestartPolicyUnspecified)
  ∧ (∀ parallelism restartPolicy,
       JobSpec.JarFile job ≠ "" →
       JobSpec.Parallelism job = Some parallelism → 1 ≤ parallelism →
       JobSpec.RestartPolicy job = Some restartPolicy →
       restartPolicy ∉ restartPolicies →
       validateJob (Some job) = Err (ErrInvalidRestartPolicy restartPolicy)).
Proof.
  rewrite validateJob_result. split_and!.
  - intros ->. done.
  - intros Hjar ->. by rewrite bool_decide_eq_false_2.
  - intros parallelism Hjar -> Hsmall. rewrite bool_decide_eq_false_2 by done.
    by destruct (Z.ltb_spec parallelism 1); [|lia].
  - intros parallelism Hjar -> Hlarge ->.
    rewrite bool_decide_eq_false_2 by done.
    by destruct (Z.ltb_spec parallelism 1); [lia|].
  - intros parallelism restartPolicy Hjar -> Hlarge -> Hpolicy.
    rewrite bool_decide_eq_false_2 by done.
    destruct (Z.ltb_spec parallelism 1); [lia|].
    by rewrite bool_decide_eq_false_2.
Qed.

Lemma validateJob_required_fields_witness :
  validateJob (Some (JobSpec.mk "" None None None (Some true)))
  = Err ErrJarFileUnspecified
  ∧ validateJob (Some (JobSpec.mk "job.jar" (Some 0) None None None))
    = Err ErrParallelismTooSmall
  ∧ validateJob (Some (JobSpec.mk "job.jar" (Some 1) (Some "Always") None None))
    = Err (ErrInvalidRestartPolicy "Always").
Proof.
  destruct (validateJob_required_fields
              (JobSpec.mk "" None None None (Some true)))
    as (Hjar & _).
  destruct (validateJob_required_fields
              (JobSpec.mk "job.jar" (Some 0) None None None))
    as (_ & _ & Hsmall & _).
  destruct (validateJob_required_fields
              (JobSpec.mk "job.jar" (Some 1) (Some "Always") None None))
    as (_ & _ & _ & _ & Hpolicy).
  split_and!.
  - apply Hjar. reflexivity.
  - apply (Hsmall 0); [discriminate|reflexivity|lia].
  - apply (Hpolicy 1 "Always"); [discriminate|reflexivity|lia|reflexivity|].
    unfold restartPolicies. rewrite !elem_of_cons, elem_of_nil.
    intros [?|[?|[]]]; discriminate.
Defined.

(** X10.  A cleanup action passes exactly when it is DeleteCluster,
    DeleteTaskManager or KeepCluster, and a failing one is reported with
    the property it was found under and its value.  In a job whose earlier
    fields are in order, the action after success is checked before the
    action after failure, and both before [CancelRequested]. *)
Theorem validateCleanupAction_rule (job : JobSpec.t) (policy : CleanupPolicy.t) :
  (∀ property value,
     (validateCleanupAction property value = ok ↔ value ∈ cleanupActions)
     ∧ (value ∉ cleanupActions →
        validateCleanupAction property value
        = Err (ErrInvalidCleanupAction property value)))
  ∧ (JobSpec.JarFile job ≠ "" →
     (∃ parallelism,
        JobSpec.Parallelism job = Some parallelism ∧ 1 ≤ parallelism) →
     (∃ restartPolicy,
        JobSpec.RestartPolicy job = Some restartPolicy
        ∧ restartPolicy ∈ restartPolicies) →
     JobSpec.CleanupPolicy job = Some policy →
     (CleanupPolicy.AfterJobSucceeds policy ∉ cleanupActions →
      validateJob (Some job)
      = Err (ErrInvalidCleanupAction "cleanupPolicy.afterJobSucceeds"
               (CleanupPolicy.AfterJobSucceeds policy)))
     ∧ (CleanupPolicy.AfterJobSucceeds policy ∈ cleanupActions →
        CleanupPolicy.AfterJobFails policy ∉ cleanupActions →
        validateJob (Some job)
        = Err (ErrInvalidCleanupAction "cleanupPolicy.afterJobFails"
                 (CleanupPolicy.AfterJobFails policy)))).
Proof.
  split.
  - intros property value. rewrite validateCleanupAction_result. split.
    + case_bool_decide; split; done.
    + intros Hvalue. by rewrite bool_decide_eq_false_2.
  - intros Hjar (parallelism & Hpar & Hlarge) (restartPolicy & Hrestart & Hin)
      Hcleanup.
    rewrite validateJob_result, Hpar, Hrestart, Hcleanup. cbv zeta.
    rewrite bool_decide_eq_false_2 by done.
    destruct (Z.ltb_spec parallelism 1); [lia|].
    rewrite (bool_decide_eq_true_2 _ Hin). split.
    + intros Hsucceeds. by rewrite bool_decide_eq_false_2.
    + intros Hsucceeds Hfails.
      by rewrite bool_decide_eq_true_2, bool_decide_eq_false_2.
Qed.

Lemma validateCleanupAction_rule_witness :
  validateJob
    (Some (JobSpec.mk "job.jar" (Some 1) (Some RestartPolicyNever)
             (Some (CleanupPolicy.mk "" "")) (Some true)))
  = Err (ErrInvalidCleanupAction "cleanupPolicy.afterJobSucceeds" "")
  ∧ validateJob
      (Some (JobSpec.mk "job.jar" (Some 1) (Some RestartPolicyNever)
               (Some (CleanupPolicy.mk CleanupActionKeepCluster "Keep"))
               (Some true)))
    = Err (ErrInvalidCleanupAction "cleanupPolicy.afterJobFails" "Keep").
Proof.
  assert (∀ value : string,
            value = "" ∨ value = "Keep" → value ∉ cleanupActions) as Hnot.
  { intros value Hvalue. unfold cleanupActions.
    rewrite !elem_of_cons, elem_of_nil.
    intros [?|[?|[?|[]]]]; destruct Hvalue; subst; discriminate. }
  split.
  - apply (proj2 (validateCleanupAction_rule
                    (JobSpec.mk "job.jar" (Some 1) (Some RestartPolicyNever)
                       (Some (CleanupPolicy.mk "" "")) (Some true))
                    (CleanupPolicy.mk "" ""))).
    + discriminate.
    + exists 1. split; [reflexivity|lia].
    + exists RestartPolicyNever. split; [reflexivity|apply list_elem_of_here].
    + reflexivity.
    + apply Hnot. by left.
  - apply (proj2 (validateCleanupAction_rule
                    (JobSpec.mk "job.jar" (Some 1) (Some RestartPolicyNever)
                       (Some (CleanupPolicy.mk CleanupActionKeepCluster "Keep"))
                       (Some true))
                    (CleanupPolicy.mk CleanupActionKeepCluster "Keep"))).
    + discriminate.
    + exists 1. split; [reflexivity|lia].
    + exists RestartPolicyNever. split; [reflexivity|apply list_elem_of_here].
    + reflexivity.
    + do 2 apply list_elem_of_further. apply list_elem_of_here.
    + apply Hnot. by right.
Defined.

(** X11.  [ValidateCreate] never gets to the worker and job checks: its
    result is the same under any worker and any job, and every error it
    returns is the error of its identity, image or manager check. *)
Theorem ValidateCreate_worker_job_unreached (cluster : Cluster) :
  (∀ tm job,
     ValidateCreate
       (FlinkCluster.mk (ObjectMeta cluster)
          (FlinkClusterSpec.mk (Image (Spec cluster))
             (JobManager (Spec cluster)) tm job))
     = ValidateCreate cluster)
  ∧ (∀ e, ValidateCreate cluster = Err e →
          (∃ e', validateMeta (ObjectMeta cluster) = Err e' ∧ e = e')
          ∨ (∃ e', validateImage (Image (Spec cluster)) = Err e' ∧ e = e')
          ∨ ∃ e', validateJobManager (JobManager (Spec cluster)) = Err e'
                  ∧ e = e').
Proof.
  pose proof (validateJobManager_never_ok (JobManager (Spec cluster))) as Hjm.
  unfold ValidateCreate. simpl. split.
  - intros tm job.
    destruct (validateMeta _) as [[]| |]; [simpl|done..].
    destruct (validateImage _) as [[]| |]; [simpl|done..].
    by destruct (validateJobManager _) as [[]| |].
  - intros e.
    destruct (validateMeta _) as [[]|e1|]; simpl; [|intros [= <-]; eauto|done].
    destruct (validateImage _) as [[]|e2|]; simpl;
      [|intros [= <-]; eauto 10|done].
    destruct (validateJobManager _) as [[]|e3|]; simpl;
      [done|intros [= <-]; eauto 10|done].
Qed.

(** X12.  The manager check never returns "memory limit must be larger
    than MemoryOffHeapMin": the comparison with the memory limit sits behind
    a nil dereference.  Its result is the same under any resource
    requirements, so no memory limit, however small, changes it. *)
Theorem validateJobManager_memory_limit_unchecked (jm : JobManagerSpec.t) :
  validateJobManager jm ≠ Err ErrJobManagerMemoryLimit
  ∧ ∀ resources,
      validateJobManager
        (JobManagerSpec.mk (JobManagerSpec.Replicas jm)
           (JobManagerSpec.AccessScope jm) (JobManagerSpec.Ports jm) resources
           (JobManagerSpec.MemoryOffHeapRatio jm)
           (JobManagerSpec.MemoryOffHeapMin jm))
      = validateJobManager jm.
Proof.
  split.
  - rewrite validateJobManager_result. unfold portError.
    by repeat case_match.
  - intros resources. by rewrite !validateJobManager_result.
Qed.

(** The manager check ends past the ratio check only for a manager that
    satisfies every rule before the off-heap minimum. *)
Lemma validateJobManager_past_ratio jm :
  validateJobManager jm = Panic
  ∨ validateJobManager jm = Err ErrJobManagerOffHeapMinUnspecified →
  managerValidBeforeOffHeapMin jm = true.
Proof.
  rewrite validateJobManager_result. intros Hend.
  apply managerValidBeforeOffHeapMin_spec.
  case_bool_decide as Hreplicas; [|by destruct Hend].
  case_bool_decide as Hscope; [|by destruct Hend].
  destruct (firstInvalidPort _) as [[name port]|] eqn:Hports;
    [destruct port; by destruct Hend|].
  apply firstInvalidPort_None in Hports.
  destruct (JobManagerSpec.MemoryOffHeapRatio jm) as [ratio|];
    [|by destruct Hend].
  destruct (Z.ltb_spec ratio 0); [by destruct Hend|].
  destruct (Z.ltb_spec 100 ratio); [by destruct Hend|].
  split_and!; [done..|]. exists ratio. split; [done|lia].
Qed.

(** X18.  [ValidateCreate] ends in one of two ways on a cluster whose
    identity, image and manager satisfy every rule up to the off-heap
    ratio, and only on such a cluster: it returns "MemoryOffHeapMin is not
    specified" exactly when the minimum is present, and it panics exactly
    when the minimum is nil. *)
Theorem ValidateCreate_at_offHeapMin (cluster : Cluster) :
  let jm := JobManager (Spec cluster) in
  let reachesMin :=
    validateMeta (ObjectMeta cluster) = ok
    ∧ validateImage (Image (Spec cluster)) = ok
    ∧ managerValidBeforeOffHeapMin jm = true in
  (ValidateCreate cluster = Err ErrJobManagerOffHeapMinUnspecified
   ↔ reachesMin ∧ is_Some (JobManagerSpec.MemoryOffHeapMin jm))
  ∧ (ValidateCreate cluster = Panic
     ↔ reachesMin ∧ JobManagerSpec.MemoryOffHeapMin jm = None).
Proof.
  cbv zeta. unfold ValidateCreate.
  pose proof (validateJobManager_past_ratio (JobManager (Spec cluster)))
    as Hpast.
  pose proof (validateJobManager_at_offHeapMin (JobManager (Spec cluster)))
    as Hat.
  rewrite validateMeta_result, validateImage_result.
  repeat case_bool_decide; simpl;
    try (split; split; try done; by intros [(? & ? & ?) ?]).
  destruct (managerValidBeforeOffHeapMin _) eqn:Hvalid.
  - rewrite Hat by done.
    destruct (JobManagerSpec.MemoryOffHeapMin _) as [min|]; simpl;
      split; split; try done;
      try (by intros [_ [? [=]]]); try (by intros [_ [=]]).
  - destruct (validateJobManager _) as [[]|e|] eqn:Hjm; simpl.
    + by destruct (validateJobManager_never_ok _ Hjm).
    + split; split; try done; try (by intros [(_ & _ & ?) _]).
      intros [= ->]. assert (false = true) as [=]. by apply Hpast; right.
    + assert (false = true) as [=]. by apply Hpast; left.
Qed.

(** *** The update path *)

Lemma unCancel_not_permitted old new :
  unCancel old new → ¬ permittedCancel old new.
Proof.
  intros (oldJob & newJob & Hold & _ & Hwas & _)
         (oldJob' & newJob' & Hold' & _ & [Hwas' _] & _).
  rewrite Hold in Hold'. injection Hold' as <-. destruct Hwas'; congruence.
Qed.

(** The three ways [checkCancelRequested] ends. *)
Lemma checkCancelRequested_cases old new :
  (unCancel old new
   ∧ checkCancelRequested old new = Err ErrCancelRequestedTrueToFalse)
  ∨ (¬ unCancel old new ∧ permittedCancel old new
     ∧ checkCancelRequested old new = Val true)
  ∨ (¬ unCancel old new ∧ ¬ permittedCancel old new
     ∧ checkCancelRequested old new = Val false).
Proof.
  assert (unCancel old new ∨ ¬ unCancel old new) as [Hun|Hun].
  { destruct (Job (Spec old)) as [oldJob|] eqn:Hold;
      [|right; intros (? & ? & ? & _); congruence].
    destruct (Job (Spec new)) as [newJob|] eqn:Hnew;
      [|right; intros (? & ? & _ & ? & _); congruence].
    destruct (isTrue (JobSpec.CancelRequested oldJob)) eqn:Hwas.
    - destruct (isNilOrFalse (JobSpec.CancelRequested newJob)) eqn:Hnow.
      + left. exists oldJob, newJob.
        apply isTrue_spec in Hwas. apply isNilOrFalse_spec in Hnow. done.
      + right. intros (? & newJob' & _ & Hnew' & _ & Hnow').
        assert (newJob' = newJob) as -> by congruence.
        apply isNilOrFalse_spec in Hnow'. congruence.
    - right. intros (oldJob' & ? & Hold' & _ & Hwas' & _).
      assert (oldJob' = oldJob) as -> by congruence.
      apply isTrue_spec in Hwas'. congruence. }
  { left. split; [done|]. by apply checkCancelRequested_unCancel. }
  right.
  assert (permittedCancel old new ∨ ¬ permittedCancel old new) as [Hperm|Hperm].
  { destruct (Job (Spec old)) as [oldJob|] eqn:Hold;
      [|right; intros (? & ? & ? & _); congruence].
    destruct (Job (Spec new)) as [newJob|] eqn:Hnew;
      [|right; intros (? & ? & _ & ? & _); congruence].
    destruct (decide (Spec new
                      = setJob (Some (JobSpec.setCancelRequested
                                        (JobSpec.CancelRequested newJob) oldJob))
                          (Spec old))) as [Heq|Hne].
    - apply overwritten_clone_equal in Heq; [|done..].
      destruct (isNilOrFalse (JobSpec.CancelRequested oldJob)) eqn:Hwas.
      + destruct (isTrue (JobSpec.CancelRequested newJob)) eqn:Hnow.
        * left. exists oldJob, newJob. split_and!; [done..| |done].
          split; [by apply isNilOrFalse_spec|by apply isTrue_spec].
        * right. intros (? & newJob' & _ & Hnew' & [_ Hnow'] & _).
          assert (newJob' = newJob) as -> by congruence.
          apply isTrue_spec in Hnow'. congruence.
      + right. intros (oldJob' & ? & Hold' & _ & [Hwas' _] & _).
        assert (oldJob' = oldJob) as -> by congruence.
        apply isNilOrFalse_spec in Hwas'. congruence.
    - right. intros (oldJob' & newJob' & Hold' & Hnew' & _ & Hsame).
      assert (oldJob' = oldJob) as -> by congruence.
      assert (newJob' = newJob) as -> by congruence.
      by apply overwritten_clone_equal in Hsame. }
  - left. split_and!; [done..|]. by apply checkCancelRequested_permitted.
  - right. split_and!; [done..|]. by apply checkCancelRequested_otherwise.
Qed.

Lemma unCancel_differs old new : unCancel old new → Spec old ≠ Spec new.
Proof.
  intros (oldJob & newJob & Hold & Hnew & Hwas & Hnow) Heq.
  rewrite Heq, Hnew in Hold. injection Hold as <-. destruct Hnow; congruence.
Qed.

Lemma permittedCancel_differs old new :
  permittedCancel old new → Spec old ≠ Spec new.
Proof.
  intros (oldJob & newJob & Hold & Hnew & Hraised & _) Heq.
  by apply (cancelRaised_differs old new oldJob newJob Hold Hnew Hraised).
Qed.

(** The outcomes of [ValidateUpdate], each with the condition it stands
    for. *)
Lemma ValidateUpdate_outcomes (old new : Cluster) :
  (ValidateUpdate old new = ok
   ↔ Spec old = Spec new ∨ permittedCancel old new)
  ∧ (ValidateUpdate old new = Err ErrCancelRequestedTrueToFalse
     ↔ unCancel old new)
  ∧ (ValidateUpdate old new = Err ErrNotUpdatable
     ↔ ¬ unCancel old new ∧ ¬ permittedCancel old new
       ∧ Spec old ≠ Spec new)
  ∧ ValidateUpdate old new ≠ Panic.
Proof.
  unfold ValidateUpdate.
  destruct (checkCancelRequested_cases old new)
    as [[Hun ->]|[(Hun & Hperm & ->)|(Hun & Hperm & ->)]]; simpl.
  - pose proof (unCancel_differs _ _ Hun) as Hne.
    pose proof (unCancel_not_permitted _ _ Hun) as Hperm.
    split_and!; [split|split|split|]; intros; try done; try tauto; try (intuition congruence).
  - split_and!; [split|split|split|]; intros; try done; try tauto; try (intuition congruence).
  - destruct (DeepEqual (Spec new) (Spec old)) eqn:Heq; simpl.
    + apply (proj1 (DeepEqual_true _ _)) in Heq. symmetry in Heq.
      split_and!; [split|split|split|]; intros; try done; try tauto; try (intuition congruence).
    + apply (proj1 (DeepEqual_false _ _)) in Heq.
      assert (Spec old ≠ Spec new) as Hne by congruence.
      split_and!; [split|split|split|]; intros; try done; try tauto; try (intuition congruence).
Qed.

(** X13.  [ValidateUpdate] decides an update in full: it returns nil
    exactly when the two [Spec]s are equal or the update is the permitted
    cancel transition, "updating cancelRequested from true to false is not
    allowed" exactly on the un-cancel transition, and "the cluster
    properties are not updatable" in every other case; given two resources
    it does not panic. *)
Theorem ValidateUpdate_decision (old new : Cluster) :
  (ValidateUpdate old new = ok
   ↔ Spec old = Spec new ∨ permittedCancel old new)
  ∧ (ValidateUpdate old new = Err ErrCancelRequestedTrueToFalse
     ↔ unCancel old new)
  ∧ (ValidateUpdate old new = Err ErrNotUpdatable
     ↔ ¬ unCancel old new ∧ ¬ permittedCancel old new
       ∧ Spec old ≠ Spec new)
  ∧ ValidateUpdate old new ≠ Panic.
Proof. apply ValidateUpdate_outcomes. Qed.

(** X14.  An accepted update that changed something cannot be taken back:
    when [ValidateUpdate old new] returns nil and the two [Spec]s differ,
    [ValidateUpdate new old] returns "updating cancelRequested from true to
    false is not allowed". *)
Theorem ValidateUpdate_accepted_change_irreversible (old new : Cluster) :
  ValidateUpdate old new = ok → Spec old ≠ Spec new →
  ValidateUpdate new old = Err ErrCancelRequestedTrueToFalse.
Proof.
  intros Hok Hne.
  apply (proj1 (ValidateUpdate_outcomes old new)) in Hok as [?|Hperm]; [done|].
  apply (proj1 (proj2 (ValidateUpdate_outcomes new old))).
  destruct Hperm as (oldJob & newJob & Hold & Hnew & [Hwas Hnow] & _).
  by exists newJob, oldJob.
Qed.

Lemma ValidateUpdate_accepted_change_irreversible_witness :
  ValidateUpdate (Sample.cluster (Some true)) (Sample.cluster None)
  = Err ErrCancelRequestedTrueToFalse.
Proof.
  apply (ValidateUpdate_accepted_change_irreversible
           (Sample.cluster None) (Sample.cluster (Some true)));
    [reflexivity|discriminate].
Defined.

(** X15.  Accepted updates compose: when [ValidateUpdate] returns nil from
    a first resource to a second and from the second to a third, it returns
    nil from the first to the third. *)
Theorem ValidateUpdate_accepted_compose (first second third : Cluster) :
  ValidateUpdate first second = ok → ValidateUpdate second third = ok →
  ValidateUpdate first third = ok.
Proof.
  intros Hfirst%(proj1 (ValidateUpdate_outcomes _ _))
         Hsecond%(proj1 (ValidateUpdate_outcomes _ _)).
  apply (proj1 (ValidateUpdate_outcomes first third)).
  destruct Hfirst as [Heq|Hperm].
  - destruct Hsecond as [Heq'|Hperm']; [left; congruence|right].
    destruct Hperm' as (oldJob & newJob & Hold & Hnew & Hraised & Hsame).
    exists oldJob, newJob. by rewrite Heq.
  - destruct Hsecond as [Heq'|Hperm'].
    + right. destruct Hperm as (oldJob & newJob & Hold & Hnew & Hraised & Hsame).
      exists oldJob, newJob. by rewrite <- Heq'.
    + destruct Hperm as (? & newJob & _ & Hnew & [_ Hnow] & _).
      destruct Hperm' as (oldJob' & ? & Hold' & _ & [Hwas' _] & _).
      rewrite Hnew in Hold'. injection Hold' as <-.
      destruct Hwas'; congruence.
Qed.

Lemma ValidateUpdate_accepted_compose_witness :
  ValidateUpdate Sample.renamed (Sample.cluster (Some true)) = ok.
Proof.
  apply (ValidateUpdate_accepted_compose
           Sample.renamed (Sample.cluster None) (Sample.cluster (Some true)));
    reflexivity.
Defined.

(** X16.  Attaching a job to a cluster that has none, or detaching the job
    of a cluster that has one, is rejected with "the cluster properties are
    not updatable": the cancel logic is skipped when either side has no
    job, so this holds also when the attached job asks for cancellation and
    when the detached job had been cancelled. *)
Theorem ValidateUpdate_job_attached_or_detached (old new : Cluster) job :
  (Job (Spec old) = None ∧ Job (Spec new) = Some job)
  ∨ (Job (Spec old) = Some job ∧ Job (Spec new) = None) →
  ValidateUpdate old new = Err ErrNotUpdatable.
Proof.
  intros Hjobs. apply (proj1 (proj2 (proj2 (ValidateUpdate_outcomes old new)))).
  split_and!.
  - intros (? & ? & Hold & Hnew & _). destruct Hjobs as [[? ?]|[? ?]]; congruence.
  - intros (? & ? & Hold & Hnew & _). destruct Hjobs as [[? ?]|[? ?]]; congruence.
  - intros Heq. rewrite Heq in Hjobs. destruct Hjobs as [[? ?]|[? ?]]; congruence.
Qed.

Lemma ValidateUpdate_job_attached_or_detached_witness :
  ValidateUpdate Sample.invalid
    (FlinkCluster.mk Sample.meta
       (setJob (Some (Sample.job (Some true))) (Spec Sample.invalid)))
  = Err ErrNotUpdatable
  ∧ ValidateUpdate
      (FlinkCluster.mk Sample.meta
         (setJob (Some (Sample.job (Some true))) (Spec Sample.invalid)))
      Sample.invalid
    = Err ErrNotUpdatable.
Proof.
  split.
  - apply (ValidateUpdate_job_attached_or_detached _ _
             (Sample.job (Some true))).
    left. split; reflexivity.
  - apply (ValidateUpdate_job_attached_or_detached _ _
             (Sample.job (Some true))).
    right. split; reflexivity.
Defined.

(** X17.  A nil [CancelRequested] and one that points to false are not
    interchangeable in an update: with a job on both sides, going from nil
    to false or from false to nil is rejected with "the cluster properties
    are not updatable", even when nothing else differs. *)
Theorem ValidateUpdate_nil_and_false_differ (old new : Cluster) oldJob newJob :
  Job (Spec old) = Some oldJob → Job (Spec new) = Some newJob →
  (JobSpec.CancelRequested oldJob = None
   ∧ JobSpec.CancelRequested newJob = Some false)
  ∨ (JobSpec.CancelRequested oldJob = Some false
     ∧ JobSpec.CancelRequested newJob = None) →
  ValidateUpdate old new = Err ErrNotUpdatable.
Proof.
  intros Hold Hnew Hflags.
  apply (proj1 (proj2 (proj2 (ValidateUpdate_outcomes old new)))).
  split_and!.
  - intros (? & ? & Hold' & _ & Hwas & _).
    rewrite Hold in Hold'. injection Hold' as <-.
    destruct Hflags as [[? ?]|[? ?]]; congruence.
  - intros (? & ? & _ & Hnew' & [_ Hnow] & _).
    rewrite Hnew in Hnew'. injection Hnew' as <-.
    destruct Hflags as [[? ?]|[? ?]]; congruence.
  - intros Heq. rewrite Heq, Hnew in Hold. injection Hold as <-.
    destruct Hflags as [[? ?]|[? ?]]; congruence.
Qed.

Lemma ValidateUpdate_nil_and_false_differ_witness :
  ValidateUpdate (Sample.cluster None) (Sample.cluster (Some false))
  = Err ErrNotUpdatable.
Proof.
  apply (ValidateUpdate_nil_and_false_differ
           (Sample.cluster None) (Sample.cluster (Some false))
           (Sample.job None) (Sample.job (Some false)));
    [reflexivity|reflexivity|].
  left. split; reflexivity.
Defined.

(** *** Quantities in an update *)

(** A memory limit rewritten from 1Gi to 1024Mi has the same value and is a
    change to [reflect.DeepEqual]: the update is rejected as not updatable,
    and with the cancel flag raised beside it it is not the permitted
    transition either. *)
Example ValidateUpdate_requantified_rejected :
  Quantity.Value Sample.oneGi = Quantity.Value Sample.oneGiAs1024Mi
  ∧ ValidateUpdate (Sample.cluster None) (Sample.requantified None)
    = Err ErrNotUpdatable
  ∧ ValidateUpdate (Sample.cluster None) (Sample.requantified (Some true))
    = Err ErrNotUpdatable
  ∧ ¬ permittedCancel (Sample.cluster None) (Sample.requantified (Some true)).
Proof.
  assert (ValidateUpdate (Sample.cluster None)
            (Sample.requantified (Some true)) = Err ErrNotUpdatable)
    as Hcancel by by vm_compute.
  split_and!; [reflexivity|by vm_compute|done|].
  by apply (proj1 (proj2 (proj2 (ValidateUpdate_outcomes _ _)))) in Hcancel
    as (_ & ? & _).
Qed.

(** *** Nil pointers *)

(** X19.  [ValidateUpdate] does not guard against nil: called with a nil
    [old], or with a nil [new] and any [old], it panics on the dereference
    instead of returning an error, and leaves the store as it was. *)
Theorem ValidateUpdate_nil_pointer_panics (σ : Mem.store) (p : Mem.ptr) :
  Mem.ValidateUpdate None p σ = (σ, Panic)
  ∧ Mem.ValidateUpdate p None σ = (σ, Panic).
Proof.
  split; [done|].
  unfold Mem.ValidateUpdate, Mem.checkCancelRequested.
  rewrite !bind_run.
  destruct (loadCluster_cases σ p) as [(a & o & -> & Ha & Hload)|Hload];
    rewrite Hload; [|done].
  by destruct (Job (Spec o)).
Qed.

End Coverage.
